(** * The changelog pipeline of nextra-docs-template

    A shallow embedding of [src/components/changelog/utils.ts], of the
    [Changelog] component and of the [Pagination] component, followed by
    the properties their specification states about them.

    Conventions of the embedding.
    - A JavaScript string is a [string]; each character stands for one
      UTF-16 code unit in the range 0..255 (Basic Latin and Latin-1).
    - A JavaScript value that is either a string or [undefined] is an
      [option string], [None] standing for [undefined].
    - A JavaScript integer number is a [Z]; a number that may be [NaN] is an
      [option Z], [None] standing for [NaN].
    - Code that may throw returns a [Result]. *)

From Stdlib Require Import String Ascii List ZArith Lia Bool DecimalString.
Import ListNotations.

Set Implicit Arguments.

(** ** Exceptions *)

Inductive JsError : Type :=
| TypeError                 (* member access on [undefined] *)
| ExecError                 (* rejection of an [execPromise] call *)
| Error (msg : string).     (* [new Error(msg)] *)

Inductive Result (A : Type) : Type :=
| Ok (a : A)
| Throw (e : JsError).

Arguments Ok {A} a.
Arguments Throw {A} e.

Definition bind {A B : Type} (m : Result A) (k : A -> Result B) : Result B :=
  match m with
  | Ok a => k a
  | Throw e => Throw e
  end.

Declare Scope js_scope.
Delimit Scope js_scope with js.
Notation "x <- m ;; k" := (bind m (fun x => k))
  (at level 61, m at next level, right associativity) : js_scope.

(** ** String built-ins *)

Module JsString.

Local Open Scope string_scope.

(** Code units with a lower-case mapping in the Latin-1 range: A-Z,
    U+00C0..U+00D6 and U+00D8..U+00DE.  Each maps to the unit 32 above. *)
Definition isUpper (c : ascii) : bool :=
  let n := nat_of_ascii c in
  ((65 <=? n) && (n <=? 90)
   || (192 <=? n) && (n <=? 214)
   || (216 <=? n) && (n <=? 222))%nat.

Definition toLowerChar (c : ascii) : ascii :=
  if isUpper c then ascii_of_nat (nat_of_ascii c + 32) else c.

(** [s.toLowerCase()] *)
Fixpoint toLowerCase (s : string) : string :=
  match s with
  | EmptyString => EmptyString
  | String c s' => String (toLowerChar c) (toLowerCase s')
  end.

(** [s.startsWith(p)] *)
Fixpoint startsWith (s p : string) {struct p} : bool :=
  match p with
  | EmptyString => true
  | String c p' =>
      match s with
      | EmptyString => false
      | String d s' => Ascii.eqb d c && startsWith s' p'
      end
  end.

(** [s.includes(p)] *)
Fixpoint includes (s p : string) {struct s} : bool :=
  startsWith s p ||
  match s with
  | EmptyString => false
  | String _ s' => includes s' p
  end.

(** White space and line terminators below 256: TAB, LF, VT, FF, CR, SP
    and NBSP. *)
Definition isWhiteSpace (c : ascii) : bool :=
  let n := nat_of_ascii c in
  ((9 <=? n) && (n <=? 13) || (n =? 32) || (n =? 160))%nat.

Fixpoint trimStart (s : string) : string :=
  match s with
  | EmptyString => EmptyString
  | String c s' => if isWhiteSpace c then trimStart s' else s
  end.

Fixpoint trimEnd (s : string) : string :=
  match s with
  | EmptyString => EmptyString
  | String c s' =>
      match trimEnd s' with
      | EmptyString => if isWhiteSpace c then EmptyString else String c EmptyString
      | r => String c r
      end
  end.

(** [s.trim()] *)
Definition trim (s : string) : string := trimEnd (trimStart s).

(** Truthiness of a string: every string but the empty one. *)
Definition truthy (s : string) : bool :=
  match s with
  | EmptyString => false
  | String _ _ => true
  end.

(** [s.split(sep)] for a separator of one code unit.  The result is never
    empty: a string without the separator is its own single part. *)
Fixpoint split (s : string) (sep : ascii) : list string :=
  match s with
  | EmptyString => [EmptyString]
  | String c s' =>
      if Ascii.eqb c sep then EmptyString :: split s' sep
      else
        match split s' sep with
        | [] => [String c EmptyString]
        | part :: parts => String c part :: parts
        end
  end.

(** [parts.join(sep)] on an array of strings. *)
Fixpoint join (parts : list string) (sep : string) : string :=
  match parts with
  | [] => EmptyString
  | [part] => part
  | part :: rest => part ++ sep ++ join rest sep
  end.

(** The separators of the log format, as code units. *)
Definition bar : ascii := "|"%char.
Definition newline : ascii := "010"%char.

End JsString.

(** ** Date built-ins

    Time values are milliseconds since 1 January 1970 UTC; the functions
    below carry the names of the abstract operations of ECMAScript. *)

Module JsDate.

Local Open Scope Z_scope.

Definition msPerHour : Z := 3600000.
Definition msPerDay : Z := 86400000.

Definition Day (t : Z) : Z := t / msPerDay.

Definition TimeWithinDay (t : Z) : Z := t mod msPerDay.

Definition isLeapYear (y : Z) : bool :=
  ((y mod 4 =? 0) && negb (y mod 100 =? 0)) || (y mod 400 =? 0).

Definition daysInMonth (y m : Z) : Z :=
  if m =? 2 then (if isLeapYear y then 29 else 28)
  else if (m =? 4) || (m =? 6) || (m =? 9) || (m =? 11) then 30
  else 31.

(** Day number of day [d] of month [m] (1..12) of year [y] in the
    proleptic Gregorian calendar. *)
Definition daysFromCivil (y m d : Z) : Z :=
  let y' := if m <=? 2 then y - 1 else y in
  let era := y' / 400 in
  let yoe := y' - era * 400 in
  let mp := if m <=? 2 then m + 9 else m - 3 in
  let doy := (153 * mp + 2) / 5 + d - 1 in
  let doe := yoe * 365 + yoe / 4 - yoe / 100 + doy in
  era * 146097 + doe - 719468.

(** Year, month (1..12) and day of month of a day number. *)
Definition civilFromDays (day : Z) : Z * Z * Z :=
  let z := day + 719468 in
  let era := z / 146097 in
  let doe := z - era * 146097 in
  let yoe := (doe - doe / 1460 + doe / 36524 - doe / 146096) / 365 in
  let doy := doe - (365 * yoe + yoe / 4 - yoe / 100) in
  let mp := (5 * doy + 2) / 153 in
  let d := doy - (153 * mp + 2) / 5 + 1 in
  let m := if mp <? 10 then mp + 3 else mp - 9 in
  let y := yoe + era * 400 in
  (if m <=? 2 then y + 1 else y, m, d).

Definition YearFromTime (t : Z) : Z := fst (fst (civilFromDays (Day t))).

(** Months count from 0 in ECMAScript. *)
Definition MonthFromTime (t : Z) : Z := snd (fst (civilFromDays (Day t))) - 1.

Definition DateFromTime (t : Z) : Z := snd (civilFromDays (Day t)).

(** The day number of the first day of the month, moved by [date - 1];
    a month outside 0..11 carries into the year. *)
Definition MakeDay (year month date : Z) : Z :=
  let ym := year + month / 12 in
  let mn := month mod 12 in
  daysFromCivil ym (mn + 1) 1 + date - 1.

Definition MakeDate (day time : Z) : Z := day * msPerDay + time.

(** Time values beyond 8.64e15 ms from the epoch become [NaN]. *)
Definition TimeClip (time : Z) : option Z :=
  if Z.abs time >? 8640000000000000 then None else Some time.

Definition digit (c : ascii) : option Z :=
  let n := nat_of_ascii c in
  if ((48 <=? n) && (n <=? 57))%nat then Some (Z.of_nat n - 48) else None.

Definition isDash (c : ascii) : bool := Ascii.eqb c "-"%char.

(** Year, month and day of a date-only string [YYYY-MM-DD] of the
    ECMAScript date-time string format that names a day of the calendar. *)
Definition isoFields (s : string) : option (Z * Z * Z) :=
  match s with
  | String y1 (String y2 (String y3 (String y4 (String s1
      (String m1 (String m2 (String s2 (String d1 (String d2 EmptyString))))))))) =>
      match digit y1, digit y2, digit y3, digit y4,
            digit m1, digit m2, digit d1, digit d2 with
      | Some a, Some b, Some c, Some e, Some f, Some g, Some h, Some i =>
          let y := 1000 * a + 100 * b + 10 * c + e in
          let m := 10 * f + g in
          let d := 10 * h + i in
          if isDash s1 && isDash s2 && (1 <=? m) && (m <=? 12)
             && (1 <=? d) && (d <=? daysInMonth y m)
          then Some (y, m, d) else None
      | _, _, _, _, _, _, _, _ => None
      end
  | _ => None
  end.

(** The day number of the day a date-only string names. *)
Definition isoDay (s : string) : option Z :=
  match isoFields s with
  | Some (y, m, d) => Some (daysFromCivil y m d)
  | None => None
  end.

(** [Date.parse] on the date-only form: midnight UTC of that day.  Strings
    of any other shape fall to parsers that differ between engines; this
    function gives them [NaN]. *)
Definition parseIsoDate (s : string) : option Z :=
  option_map (fun day => day * msPerDay) (isoDay s).

(** What the engine and its environment decide: how [Date.parse] reads a
    string, and the offset of local time from UTC.  [LocalTZA t true] is the
    offset at the UTC instant [t]; [LocalTZA t false] is the offset at the
    local time value [t]. *)
Record Host : Type := {
  Date_parse : string -> option Z;
  LocalTZA : Z -> bool -> Z
}.

Section Host.

Variable host : Host.

(** [new Date(value)] for a string or [undefined]; the result is the time
    value of the new object, [None] for an Invalid Date. *)
Definition newDate (value : option string) : option Z :=
  match value with
  | Some s =>
      match Date_parse host s with
      | Some tv => TimeClip tv
      | None => None
      end
  | None => None
  end.

Definition LocalTime (t : Z) : Z := t + LocalTZA host t true.

Definition UTC (t : Z) : Z := t - LocalTZA host t false.

(** [d.getDate()] on a Date with time value [tv]: the day of the month in
    local time. *)
Definition getDate (tv : option Z) : option Z :=
  match tv with
  | Some t => Some (DateFromTime (LocalTime t))
  | None => None
  end.

(** [d.setDate(date)] on a Date with time value [tv]; the result is the
    new time value of [d]. *)
Definition setDate (tv : option Z) (date : option Z) : option Z :=
  match tv, date with
  | Some t, Some dt =>
      let t := LocalTime t in
      let newDate :=
        MakeDate (MakeDay (YearFromTime t) (MonthFromTime t) dt) (TimeWithinDay t) in
      TimeClip (UTC newDate)
  | _, _ => None
  end.

End Host.

(** [x + 1] on a number that may be [NaN]. *)
Definition plus1 (x : option Z) : option Z :=
  match x with
  | Some n => Some (n + 1)
  | None => None
  end.

(** [a >= b] and [a < b] on Date objects compare time values; a comparison
    with [NaN] is false. *)
Definition date_ge (a b : option Z) : bool :=
  match a, b with
  | Some x, Some y => y <=? x
  | _, _ => false
  end.

Definition date_lt (a b : option Z) : bool :=
  match a, b with
  | Some x, Some y => x <? y
  | _, _ => false
  end.

(** A host on UTC. *)
Definition utcHost : Host :=
  {| Date_parse := parseIsoDate; LocalTZA := fun _ _ => 0 |}.

(** A host on Central European time in the weeks around the end of summer
    time on 27 October 2024: UTC+2 before 01:00 UTC of that day, UTC+1 from
    then on; read from local time, UTC+2 before 03:00 and UTC+1 from then
    on, the hour that the clocks repeat counting as summer time. *)
Definition cetSwitch2024 : Z := daysFromCivil 2024 10 27 * msPerDay.

Definition berlinHost : Host :=
  {| Date_parse := parseIsoDate;
     LocalTZA := fun t isUTC =>
       if isUTC
       then (if t <? cetSwitch2024 + 1 * msPerHour then 2 * msPerHour else 1 * msPerHour)
       else (if t <? cetSwitch2024 + 3 * msPerHour then 2 * msPerHour else 1 * msPerHour) |}.

End JsDate.

(** ** Code that awaits commands and updates state *)

Module Shell.

Local Open Scope Z_scope.

(** The two commands the code runs: [git rev-list --count HEAD] and
    [git log --pretty=format:"%h|%an|%ad|%s" --date=short -n n --skip=skip]. *)
Inductive Cmd : Type :=
| GitRevListCount
| GitLog (n skip : Z).

(** The outcome of running a command: its standard output, or the
    rejection of the promise. *)
Definition Exec : Type := Cmd -> Result string.

Section Task.

Variable S : Type.

(** The commands run so far, oldest first, and the state the code owns. *)
Record World : Type := {
  calls : list Cmd;
  state : S
}.

Definition Task (A : Type) : Type := World -> Result A * World.

Definition ret {A : Type} (a : A) : Task A := fun w => (Ok a, w).

Definition throw {A : Type} (e : JsError) : Task A := fun w => (Throw e, w).

Definition tbind {A B : Type} (m : Task A) (k : A -> Task B) : Task B :=
  fun w =>
    match m w with
    | (Ok a, w') => k a w'
    | (Throw e, w') => (Throw e, w')
    end.

(** [try { m } catch (err) { handler }]: what [m] did to the world before
    it threw stays done. *)
Definition tryCatch {A : Type} (m : Task A) (handler : JsError -> Task A) : Task A :=
  fun w =>
    match m w with
    | (Ok a, w') => (Ok a, w')
    | (Throw e, w') => handler e w'
    end.

(** [await execPromise(cmd)] *)
Definition execPromise (exec : Exec) (cmd : Cmd) : Task string :=
  fun w => (exec cmd, {| calls := calls w ++ [cmd]; state := state w |}).

Definition get : Task S := fun w => (Ok (state w), w).

Definition modify (f : S -> S) : Task unit :=
  fun w => (Ok tt, {| calls := calls w; state := f (state w) |}).

End Task.

Arguments ret {S A} a.
Arguments throw {S A} e.
Arguments execPromise {S} exec cmd.
Arguments get {S}.
Arguments modify {S} f.

Declare Scope task_scope.
Delimit Scope task_scope with task.
Notation "x <- m ;; k" := (tbind m (fun x => k))
  (at level 61, m at next level, right associativity) : task_scope.
Notation "m ;; k" := (tbind m (fun _ => k))
  (at level 61, right associativity) : task_scope.

End Shell.

(** ** utils.ts *)

Module Utils.

Import JsString JsDate Shell.
Local Open Scope string_scope.

(** The constructors are the string literals of the union type, capitalised
    ([fix] is a keyword of Rocq). *)
Inductive CommitType : Type :=
| Feature | Fix | Docs | Chore | Refactor | Test | Style | Other.

Definition CommitType_eqb (a b : CommitType) : bool :=
  match a, b with
  | Feature, Feature | Fix, Fix | Docs, Docs | Chore, Chore
  | Refactor, Refactor | Test, Test | Style, Style | Other, Other => true
  | _, _ => false
  end.

(** [hash], [author] and [date] are bound by array destructuring, so each
    is [undefined] when the line has too few parts; [message] is the result
    of a [join] and is always a string. *)
Record Commit : Type := {
  hash : option string;
  author : option string;
  date : option string;
  message : string;
  type : CommitType
}.

Definition detectCommitType (message : string) : CommitType :=
  let lowerMessage := toLowerCase message in
  if startsWith lowerMessage "feat" || includes lowerMessage ": feat" then Feature
  else if startsWith lowerMessage "fix" || includes lowerMessage ": fix" then Fix
  else if startsWith lowerMessage "docs" || includes lowerMessage ": docs" then Docs
  else if startsWith lowerMessage "chore" || includes lowerMessage ": chore" then Chore
  else if startsWith lowerMessage "refactor" || includes lowerMessage ": refactor" then Refactor
  else if startsWith lowerMessage "test" || includes lowerMessage ": test" then Test
  else if startsWith lowerMessage "style" || includes lowerMessage ": style" then Style
  else if includes lowerMessage "add" || includes lowerMessage "new"
          || includes lowerMessage "implement" then Feature
  else if includes lowerMessage "fix" || includes lowerMessage "bug"
          || includes lowerMessage "issue" then Fix
  else if includes lowerMessage "document" || includes lowerMessage "readme"
          || includes lowerMessage "comment" then Docs
  else if includes lowerMessage "clean" || includes lowerMessage "update"
          || includes lowerMessage "upgrade" then Chore
  else Other.

(** The callback of [map] in [parseGitLog]:
    [const [hash, author, date, ...messageParts] = line.split('|')]. *)
Definition parseLine (line : string) : Commit :=
  let parts := split line bar in
  let messageParts := skipn 3 parts in
  let message := join messageParts "|" in
  {| hash := nth_error parts 0;
     author := nth_error parts 1;
     date := nth_error parts 2;
     message := message;
     type := detectCommitType message |}.

(** The callback of [filter] in [parseGitLog]: [line.trim() !== '']. *)
Definition nonBlank (line : string) : bool :=
  negb (String.eqb (trim line) "").

Definition parseGitLog (logOutput : string) : list Commit :=
  map parseLine (filter nonBlank (split logOutput newline)).

Record DateRange : Type := {
  startDate : string;
  endDate : string
}.

(** The type [CommitType | 'all']. *)
Inductive TypeFilter : Type :=
| All
| Only (t : CommitType).

(** [filterType] is the field [type] of [CommitFilters]; [dateRange] is
    [None] for [null]. *)
Record CommitFilters : Type := {
  filterType : TypeFilter;
  searchQuery : string;
  dateRange : option DateRange
}.

(** [array.filter(p)] with a callback that may throw: the callback runs on
    the elements in order and its first exception ends the call. *)
Fixpoint filterR {A : Type} (p : A -> Result bool) (l : list A) : Result (list A) :=
  match l with
  | [] => Ok []
  | x :: rest =>
      (keep <- p x ;;
       kept <- filterR p rest ;;
       Ok (if keep then x :: kept else kept))%js
  end.

(** [value.toLowerCase()] where [value] may be [undefined]. *)
Definition toLowerCaseOf (value : option string) : Result string :=
  match value with
  | Some s => Ok (toLowerCase s)
  | None => Throw TypeError
  end.

(** The callback of the search filter; [||] evaluates its right operand
    only when the left one is false. *)
Definition matchesQuery (query : string) (commit : Commit) : Result bool :=
  if includes (toLowerCase (message commit)) query then Ok true
  else
    (lowerAuthor <- toLowerCaseOf (author commit) ;;
     if includes lowerAuthor query then Ok true
     else
       (lowerHash <- toLowerCaseOf (hash commit) ;;
        Ok (includes lowerHash query)))%js.

(** The callback of the type filter: [commit.type === filters.type]. *)
Definition hasType (t : CommitType) (commit : Commit) : bool :=
  CommitType_eqb (type commit) t.

(** The callback of the start-date filter. *)
Definition notBefore (host : Host) (startDate : string) (commit : Commit) : bool :=
  let commitDate := newDate host (date commit) in
  let filterStart := newDate host (Some startDate) in
  date_ge commitDate filterStart.

(** The callback of the end-date filter;
    [filterEnd.setDate(filterEnd.getDate() + 1)] updates [filterEnd]. *)
Definition notAfter (host : Host) (endDate : string) (commit : Commit) : bool :=
  let commitDate := newDate host (date commit) in
  let filterEnd := newDate host (Some endDate) in
  let filterEnd := setDate host filterEnd (plus1 (getDate host filterEnd)) in
  date_lt commitDate filterEnd.

Definition filterCommits (host : Host) (commits : list Commit)
    (filters : CommitFilters) : Result (list Commit) :=
  let result := commits in
  let result :=
    match filterType filters with
    | All => result
    | Only t => filter (hasType t) result
    end in
  (result <-
     (if truthy (trim (searchQuery filters))
      then
        let query := toLowerCase (searchQuery filters) in
        filterR (matchesQuery query) result
      else Ok result) ;;
   match dateRange filters with
   | None => Ok result
   | Some range =>
       let result :=
         if truthy (startDate range)
         then filter (notBefore host (startDate range)) result
         else result in
       let result :=
         if truthy (endDate range)
         then filter (notAfter host (endDate range)) result
         else result in
       Ok result
   end)%js.

(** *** The log source *)

Definition COMMITS_PER_PAGE : Z := 10.

Fixpoint digits (s : string) (acc : option Z) : option Z :=
  match s with
  | EmptyString => acc
  | String c s' =>
      match digit c with
      | Some d =>
          digits s' (Some (10 * match acc with Some a => a | None => 0 end + d)%Z)
      | None => acc
      end
  end.

(** [parseInt(s, 10)]: the longest decimal prefix of [s] after white space
    and a sign, [NaN] when there is none. *)
Definition parseInt (s : string) : option Z :=
  match trimStart s with
  | String "-" s' => option_map Z.opp (digits s' None)
  | String "+" s' => digits s' None
  | s' => digits s' None
  end.

Record History : Type := {
  commits : list Commit;
  totalCount : option Z
}.

Definition fetchError : JsError :=
  Error "Failed to fetch git history. This could be because the component is running in a build environment without git access.".

(** [fetchGitHistory(page, perPage)]; the code owns no state, so the state
    of its world is [unit].  [console.error] is not modelled. *)
Definition fetchGitHistory (exec : Exec) (page perPage : Z) : Task unit History :=
  tryCatch
    (countOutput <- execPromise exec GitRevListCount ;;
     let totalCount := parseInt (trim countOutput) in
     let skip := ((page - 1) * perPage)%Z in
     stdout <- execPromise exec (GitLog perPage skip) ;;
     if negb (truthy (trim stdout))
     then ret {| commits := []; totalCount := totalCount |}
     else
       let commits := parseGitLog stdout in
       ret {| commits := commits; totalCount := totalCount |})%task
    (fun err => throw fetchError).

End Utils.

(** ** The Changelog component *)

Module Changelog.

Import JsString JsDate Shell Utils.
Local Open Scope string_scope.

Definition COMMITS_PER_PAGE : Z := 10.

(** The state of the component, one field per [useState].  [Commit] and
    [Filters] have the shape of [Utils.Commit] and [Utils.CommitFilters]. *)
Record State : Type := {
  commits : list Commit;
  filteredCommits : list Commit;
  loading : bool;
  error : option string;
  currentPage : Z;
  totalCommits : option Z;
  filters : CommitFilters
}.

Definition initialState : State :=
  {| commits := [];
     filteredCommits := [];
     loading := true;
     error := None;
     currentPage := 1;
     totalCommits := Some 0%Z;
     filters := {| filterType := All; searchQuery := ""; dateRange := None |} |}.

Definition setCommits (v : list Commit) : Task State unit :=
  modify (fun s =>
    {| commits := v; filteredCommits := filteredCommits s; loading := loading s;
       error := error s; currentPage := currentPage s;
       totalCommits := totalCommits s; filters := filters s |}).

Definition setFilteredCommits (v : list Commit) : Task State unit :=
  modify (fun s =>
    {| commits := commits s; filteredCommits := v; loading := loading s;
       error := error s; currentPage := currentPage s;
       totalCommits := totalCommits s; filters := filters s |}).

Definition setLoading (v : bool) : Task State unit :=
  modify (fun s =>
    {| commits := commits s; filteredCommits := filteredCommits s; loading := v;
       error := error s; currentPage := currentPage s;
       totalCommits := totalCommits s; filters := filters s |}).

Definition setError (v : option string) : Task State unit :=
  modify (fun s =>
    {| commits := commits s; filteredCommits := filteredCommits s; loading := loading s;
       error := v; currentPage := currentPage s;
       totalCommits := totalCommits s; filters := filters s |}).

Definition setCurrentPage (v : Z) : Task State unit :=
  modify (fun s =>
    {| commits := commits s; filteredCommits := filteredCommits s; loading := loading s;
       error := error s; currentPage := v;
       totalCommits := totalCommits s; filters := filters s |}).

Definition setTotalCommits (v : option Z) : Task State unit :=
  modify (fun s =>
    {| commits := commits s; filteredCommits := filteredCommits s; loading := loading s;
       error := error s; currentPage := currentPage s;
       totalCommits := v; filters := filters s |}).

Definition setFilters (v : CommitFilters) : Task State unit :=
  modify (fun s =>
    {| commits := commits s; filteredCommits := filteredCommits s; loading := loading s;
       error := error s; currentPage := currentPage s;
       totalCommits := totalCommits s; filters := v |}).

(** The classifier the component defines for itself. *)
Definition detectCommitType (message : string) : CommitType :=
  let lowerMessage := toLowerCase message in
  if startsWith lowerMessage "feat" || includes lowerMessage ": feat" then Feature
  else if startsWith lowerMessage "fix" || includes lowerMessage ": fix" then Fix
  else if startsWith lowerMessage "docs" || includes lowerMessage ": docs" then Docs
  else if startsWith lowerMessage "chore" || includes lowerMessage ": chore" then Chore
  else if startsWith lowerMessage "refactor" || includes lowerMessage ": refactor" then Refactor
  else if startsWith lowerMessage "test" || includes lowerMessage ": test" then Test
  else if startsWith lowerMessage "style" || includes lowerMessage ": style" then Style
  else Other.

(** The callback of [map] in the component's [fetchGitHistory]. *)
Definition parseEntry (line : string) : Commit :=
  let parts := split line bar in
  let messageParts := skipn 3 parts in
  let message := join messageParts "|" in
  {| hash := nth_error parts 0;
     author := nth_error parts 1;
     date := nth_error parts 2;
     message := message;
     type := detectCommitType message |}.

Definition loadError : string :=
  "Failed to load git history. This could be because the component is running in a build environment without git access.".

Section Component.

Variable host : Host.
Variable exec : Exec.

(** Lifts a computation that may throw into a task. *)
Definition lift {A : Type} (r : Result A) : Task State A :=
  fun w => (r, w).

Definition applyFilters (commitsToFilter : list Commit)
    (currentFilters : CommitFilters) : Task State unit :=
  (let result := commitsToFilter in
   let result :=
     match filterType currentFilters with
     | All => result
     | Only t => filter (hasType t) result
     end in
   result <-
     (if truthy (trim (searchQuery currentFilters))
      then
        let query := toLowerCase (searchQuery currentFilters) in
        lift (filterR (matchesQuery query) result)
      else ret result) ;;
   let result :=
     match dateRange currentFilters with
     | None => result
     | Some range =>
         let result :=
           if truthy (startDate range)
           then filter (notBefore host (startDate range)) result
           else result in
         if truthy (endDate range)
         then filter (notAfter host (endDate range)) result
         else result
     end in
   setFilteredCommits result)%task.

(** [filters] is the value the state holds when the enclosing render made
    the closure; nothing in this function changes it. *)
Definition fetchGitHistory (page : Z) : Task State unit :=
  (setLoading true ;;
   tryCatch
     (countOutput <- execPromise exec GitRevListCount ;;
      let totalCount := parseInt (trim countOutput) in
      setTotalCommits totalCount ;;
      let skip := ((page - 1) * COMMITS_PER_PAGE)%Z in
      stdout <- execPromise exec (GitLog COMMITS_PER_PAGE skip) ;;
      if negb (truthy (trim stdout))
      then
        setCommits [] ;;
        setFilteredCommits [] ;;
        setLoading false
      else
        let logEntries := map parseEntry (filter nonBlank (split stdout newline)) in
        setCommits logEntries ;;
        s <- get ;;
        applyFilters logEntries (filters s) ;;
        setLoading false)
     (fun err =>
        setError (Some loadError) ;;
        setLoading false))%task.

Definition handleFilterChange (newFilters : CommitFilters) : Task State unit :=
  (setFilters newFilters ;;
   setCurrentPage 1 ;;
   s <- get ;;
   applyFilters (commits s) newFilters)%task.

Definition handlePageChange (page : Z) : Task State unit :=
  (setCurrentPage page ;;
   fetchGitHistory page)%task.

End Component.

End Changelog.

(** ** The Pagination component *)

Module Pagination.

Local Open Scope Z_scope.

Definition maxPageButtons : Z := 5.

(** [Array.from({ length }, (_, i) => f(i))]; a length below one gives the
    empty array. *)
Definition arrayFrom (length : Z) (f : Z -> Z) : list Z :=
  map (fun i => f (Z.of_nat i)) (seq 0 (Z.to_nat length)).

Definition getPageRange (currentPage totalPages : Z) : list Z :=
  if totalPages <=? maxPageButtons
  then arrayFrom totalPages (fun i => i + 1)
  else
    let start := Z.max (currentPage - maxPageButtons / 2) 1 in
    let end_ := start + maxPageButtons - 1 in
    if end_ >? totalPages
    then
      let end_ := totalPages in
      let start := Z.max (end_ - maxPageButtons + 1) 1 in
      arrayFrom (end_ - start + 1) (fun i => start + i)
    else arrayFrom (end_ - start + 1) (fun i => start + i).

(** What [handlePrev] and [handleNext] pass to [onPageChange], if they
    call it. *)
Definition handlePrev (currentPage : Z) : option Z :=
  if currentPage >? 1 then Some (currentPage - 1) else None.

Definition handleNext (currentPage totalPages : Z) : option Z :=
  if currentPage <? totalPages then Some (currentPage + 1) else None.

(** The children of [div.page-numbers]. *)
Inductive PageItem : Type :=
| GoToPage (page : Z)                  (* the button labelled "Go to page n" *)
| Ellipsis                             (* [span.pagination-ellipsis] *)
| PageButton (page : Z) (active : bool).

Record Nav : Type := {
  prevDisabled : bool;
  items : list PageItem;
  nextDisabled : bool;
  info : Z * Z                         (* "Page currentPage of totalPages" *)
}.

(** [x > n] and [x < n] where [x] is an array element or [undefined]. *)
Definition elem_gt (x : option Z) (n : Z) : bool :=
  match x with Some v => v >? n | None => false end.

Definition elem_lt (x : option Z) (n : Z) : bool :=
  match x with Some v => v <? n | None => false end.

Definition pageButton (currentPage page : Z) : PageItem :=
  PageButton page (page =? currentPage).

Definition pageNumbers (currentPage totalPages : Z) : list PageItem :=
  let pageRange := getPageRange currentPage totalPages in
  let first := nth_error pageRange 0 in
  let last := nth_error pageRange (length pageRange - 1) in
  (if elem_gt first 1
   then GoToPage 1 :: (if elem_gt first 2 then [Ellipsis] else [])
   else [])
  ++ map (pageButton currentPage) pageRange
  ++ (if elem_lt last totalPages
      then (if elem_lt last (totalPages - 1) then [Ellipsis] else [])
           ++ [GoToPage totalPages]
      else []).

(** The component; [None] is the [null] it returns to render nothing. *)
Definition Pagination (currentPage totalPages : Z) : option Nav :=
  if totalPages <=? 1 then None
  else
    Some {| prevDisabled := currentPage =? 1;
            items := pageNumbers currentPage totalPages;
            nextDisabled := currentPage =? totalPages;
            info := (currentPage, totalPages) |}.

End Pagination.

(** ** The specification's own wording of two algorithms

    These two definitions follow the text of the specification, not the
    code; the theorems below compare them with the code. *)

Module Spec.

Import JsString Utils.
Local Open Scope string_scope.

(** Section 4.3, step 1: keywords in priority order. *)
Definition primaryRules : list (string * CommitType) :=
  [("feat", Feature); ("fix", Fix); ("docs", Docs); ("chore", Chore);
   ("refactor", Refactor); ("test", Test); ("style", Style)].

(** A message matches a keyword when it starts with it or contains it
    after a colon and a space. *)
Definition primaryMatch (lowered keyword : string) : bool :=
  startsWith lowered keyword || includes lowered (": " ++ keyword).

(** Section 4.3, step 2: substrings in order. *)
Definition secondaryRules : list (list string * CommitType) :=
  [(["add"; "new"; "implement"], Feature);
   (["fix"; "bug"; "issue"], Fix);
   (["document"; "readme"; "comment"], Docs);
   (["clean"; "update"; "upgrade"], Chore)].

Definition secondaryMatch (lowered : string) (words : list string) : bool :=
  existsb (includes lowered) words.

(** First match wins. *)
Definition firstMatch {K : Type} (hit : K -> bool)
    (rules : list (K * CommitType)) : option CommitType :=
  option_map snd (find (fun rule => hit (fst rule)) rules).

Definition step1 (lowered : string) : option CommitType :=
  firstMatch (primaryMatch lowered) primaryRules.

Definition step2 (lowered : string) : option CommitType :=
  firstMatch (secondaryMatch lowered) secondaryRules.

Definition classify (message : string) : CommitType :=
  let lowered := toLowerCase message in
  match step1 lowered with
  | Some category => category
  | None =>
      match step2 lowered with
      | Some category => category
      | None => Other
      end
  end.

Import Pagination.
Local Open Scope Z_scope.

(** The pages [first..last], in order. *)
Definition pagesFrom (first last : Z) : list Z :=
  map (fun i => first + Z.of_nat i) (seq 0 (Z.to_nat (last - first + 1))).

(** Section 4.5: the window of visible pages. *)
Definition window (currentPage totalPages maxButtons : Z) : Z * Z :=
  if totalPages <=? maxButtons then (1, totalPages)
  else
    let start := Z.max (currentPage - maxButtons / 2) 1 in
    let end_ := start + maxButtons - 1 in
    if end_ >? totalPages
    then (Z.max (totalPages - maxButtons + 1) 1, totalPages)
    else (start, end_).

(** A "page 1" control before the window when its first page is above 1,
    followed by an ellipsis when the window starts more than one page
    after page 1. *)
Definition leading (start : Z) : list PageItem :=
  if start >? 1
  then GoToPage 1 :: (if start - 1 >? 1 then [Ellipsis] else [])
  else [].

(** The same rule at the other end, for the last page. *)
Definition trailing (end_ totalPages : Z) : list PageItem :=
  if end_ <? totalPages
  then (if totalPages - end_ >? 1 then [Ellipsis] else []) ++ [GoToPage totalPages]
  else [].

Definition visiblePageNumbers (currentPage totalPages maxButtons : Z) : list PageItem :=
  let '(start, end_) := window currentPage totalPages maxButtons in
  leading start
  ++ map (pageButton currentPage) (pagesFrom start end_)
  ++ trailing end_ totalPages.

End Spec.

(** ** utils.ts, the presentation helpers *)

Module UtilsView.

Import JsString JsDate Utils.
Local Open Scope string_scope.

(** [s.substring(0, end_)]: the first [end_] code units of [s], all of [s]
    when it is shorter, none when [end_] is below one. *)
Fixpoint take (n : nat) (s : string) : string :=
  match n, s with
  | S n', String c s' => String c (take n' s')
  | _, _ => EmptyString
  end.

Definition substring0 (s : string) (end_ : Z) : string :=
  take (Z.to_nat end_) s.

(** [s.length] *)
Definition lengthOf (s : string) : Z := Z.of_nat (String.length s).

(** [shortenHash(hash, length)]; [!hash] holds for [undefined] and for the
    empty string. *)
Definition shortenHash (hash : option string) (length : Z) : string :=
  match hash with
  | None => ""
  | Some h =>
      if negb (truthy h) then ""
      else if (lengthOf h >? length)%Z then substring0 h length else h
  end.

Record Colors : Type := {
  bg : string;
  text : string;
  border : string
}.

(** The table [typeColors] of [getCommitTypeColors]. *)
Definition typeColors (t : CommitType) : Colors :=
  match t with
  | Feature => {| bg := "#e6f7ff"; text := "#0070f3"; border := "#0070f3" |}
  | Fix => {| bg := "#fff2e8"; text := "#d46b08"; border := "#ffbb96" |}
  | Docs => {| bg := "#f6ffed"; text := "#389e0d"; border := "#b7eb8f" |}
  | Chore => {| bg := "#f9f0ff"; text := "#722ed1"; border := "#d3adf7" |}
  | Refactor => {| bg := "#e6fffb"; text := "#08979c"; border := "#87e8de" |}
  | Test => {| bg := "#fcffe6"; text := "#7cb305"; border := "#eaff8f" |}
  | Style => {| bg := "#fff0f6"; text := "#eb2f96"; border := "#ffadd2" |}
  | Other => {| bg := "#f0f0f0"; text := "#666666"; border := "#d9d9d9" |}
  end.

(** [typeColors[type] || typeColors.other]; every entry of the table is an
    object, so the left operand is taken. *)
Definition getCommitTypeColors (t : CommitType) : Colors := typeColors t.

(** The template literal of a number: decimal digits, or [NaN]. *)
Definition numberToString (n : option Z) : string :=
  match n with
  | Some z => NilZero.string_of_int (Z.to_int z)
  | None => "NaN"
  end.

Inductive DateFormat : Type :=
| relative
| long
| short.

(** [Math.floor(x / d)] on a number that may be [NaN], for [d > 0]. *)
Definition floorDiv (x : option Z) (d : Z) : option Z :=
  match x with
  | Some n => Some (n / d)%Z
  | None => None
  end.

(** [x === n] and [x < n] on a number that may be [NaN]. *)
Definition num_eq (x : option Z) (n : Z) : bool :=
  match x with Some v => (v =? n)%Z | None => false end.

Definition num_lt (x : option Z) (n : Z) : bool :=
  match x with Some v => (v <? n)%Z | None => false end.

(** [Math.abs(now.getTime() - date.getTime())] *)
Definition absDiff (now : Z) (date : option Z) : option Z :=
  match date with
  | Some t => Some (Z.abs (now - t))
  | None => None
  end.

(** [`${n} ${n === 1 ? one : many} ago`] *)
Definition ago (n : option Z) (one many : string) : string :=
  numberToString n ++ " " ++ (if num_eq n 1 then one else many) ++ " ago".

(** [formatDate(dateStr, format)].  [now] is the time value of the
    [new Date()] the call makes; [toLocaleDateString] is the formatting of
    the engine for the locale [en-US], with the month spelled in full or
    abbreviated. *)
Definition formatDate (host : Host)
    (toLocaleDateString : option Z -> DateFormat -> string)
    (now : Z) (dateStr : string) (format : DateFormat) : string :=
  let date := newDate host (Some dateStr) in
  match format with
  | relative =>
      let diffTime := absDiff now date in
      let diffDays := floorDiv diffTime (1000 * 60 * 60 * 24) in
      if num_eq diffDays 0 then "Today"
      else if num_eq diffDays 1 then "Yesterday"
      else if num_lt diffDays 7 then numberToString diffDays ++ " days ago"
      else if num_lt diffDays 30 then
        let weeks := floorDiv diffDays 7 in
        ago weeks "week" "weeks"
      else if num_lt diffDays 365 then
        let months := floorDiv diffDays 30 in
        ago months "month" "months"
      else
        let years := floorDiv diffDays 365 in
        ago years "year" "years"
  | long => toLocaleDateString date long
  | short => toLocaleDateString date short
  end.

End UtilsView.

(** ** The ChangelogItem component *)

Module ChangelogItem.

Import JsString Utils UtilsView.
Local Open Scope string_scope.

(** The table [typeColors] of the component. *)
Definition typeColors (t : CommitType) : Colors :=
  match t with
  | Feature => {| bg := "#e6f7ff"; text := "#0070f3"; border := "#0070f3" |}
  | Fix => {| bg := "#fff2e8"; text := "#d46b08"; border := "#ffbb96" |}
  | Docs => {| bg := "#f6ffed"; text := "#389e0d"; border := "#b7eb8f" |}
  | Chore => {| bg := "#f9f0ff"; text := "#722ed1"; border := "#d3adf7" |}
  | Refactor => {| bg := "#e6fffb"; text := "#08979c"; border := "#87e8de" |}
  | Test => {| bg := "#fcffe6"; text := "#7cb305"; border := "#eaff8f" |}
  | Style => {| bg := "#fff0f6"; text := "#eb2f96"; border := "#ffadd2" |}
  | Other => {| bg := "#f0f0f0"; text := "#666666"; border := "#d9d9d9" |}
  end.

(** [commit.hash.length > 7 ? commit.hash.substring(0, 7) : commit.hash];
    reading [length] of [undefined] throws. *)
Definition shortHash (commit : Commit) : Result string :=
  match hash commit with
  | None => Throw TypeError
  | Some h => Ok (if (lengthOf h >? 7)%Z then substring0 h 7 else h)
  end.

(** [typeColors[commit.type] || typeColors.other] *)
Definition colors (commit : Commit) : Colors := typeColors (type commit).

End ChangelogItem.

(** ** The ChangelogFilter component *)

Module ChangelogFilter.

Import JsString Utils.
Local Open Scope string_scope.

(** The state of the component, one field per [useState]; [filterType] is
    the state [type]. *)
Record State : Type := {
  searchQuery : string;
  filterType : TypeFilter;
  showDateFilter : bool;
  dateRange : option DateRange
}.

(** [activeType || 'all'] is [activeType]: each value of the type is a
    non-empty string. *)
Definition initialState (activeType : TypeFilter) : State :=
  {| searchQuery := ""; filterType := activeType;
     showDateFilter := false; dateRange := None |}.

Inductive Field : Type :=
| startDateField
| endDateField.

(** A handler gives the next state and the criteria it passes to
    [onFilterChange], if it calls it. *)
Definition Outcome : Type := (State * option CommitFilters)%type.

Definition handleTypeChange (s : State) (newType : TypeFilter) : Outcome :=
  ({| searchQuery := searchQuery s; filterType := newType;
      showDateFilter := showDateFilter s; dateRange := dateRange s |},
   Some {| Utils.filterType := newType;
           Utils.searchQuery := searchQuery s;
           Utils.dateRange := dateRange s |}).

Definition handleSearchChange (s : State) (value : string) : Outcome :=
  ({| searchQuery := value; filterType := filterType s;
      showDateFilter := showDateFilter s; dateRange := dateRange s |},
   Some {| Utils.filterType := filterType s;
           Utils.searchQuery := value;
           Utils.dateRange := dateRange s |}).

Definition handleDateChange (s : State) (field : Field) (value : string) : Outcome :=
  let updatedDateRange :=
    match dateRange s with
    | Some range => range
    | None => {| startDate := ""; endDate := "" |}
    end in
  let updatedDateRange :=
    match field with
    | startDateField =>
        {| startDate := value; endDate := endDate updatedDateRange |}
    | endDateField =>
        {| startDate := startDate updatedDateRange; endDate := value |}
    end in
  ({| searchQuery := searchQuery s; filterType := filterType s;
      showDateFilter := showDateFilter s; dateRange := Some updatedDateRange |},
   if truthy (startDate updatedDateRange) || truthy (endDate updatedDateRange)
   then Some {| Utils.filterType := filterType s;
                Utils.searchQuery := searchQuery s;
                Utils.dateRange := Some updatedDateRange |}
   else Some {| Utils.filterType := filterType s;
                Utils.searchQuery := searchQuery s;
                Utils.dateRange := None |}).

Definition toggleDateFilter (s : State) : Outcome :=
  match showDateFilter s, dateRange s with
  | true, Some _ =>
      ({| searchQuery := searchQuery s; filterType := filterType s;
          showDateFilter := negb (showDateFilter s); dateRange := None |},
       Some {| Utils.filterType := filterType s;
               Utils.searchQuery := searchQuery s;
               Utils.dateRange := None |})
  | _, _ =>
      ({| searchQuery := searchQuery s; filterType := filterType s;
          showDateFilter := negb (showDateFilter s); dateRange := dateRange s |},
       None)
  end.

(** The criteria the state of the filter bar stands for. *)
Definition criteria (s : State) : CommitFilters :=
  {| Utils.filterType := filterType s;
     Utils.searchQuery := searchQuery s;
     Utils.dateRange := dateRange s |}.

End ChangelogFilter.

(** ** The page count of the Changelog component *)

Module Pages.

Local Open Scope Z_scope.

(** [Math.ceil(totalCommits / COMMITS_PER_PAGE)] for an integer count. *)
Definition totalPages (totalCommits : Z) : Z :=
  - ((- totalCommits) / Changelog.COMMITS_PER_PAGE).

End Pages.

(** ** Vocabulary of the statements *)

Module Terms.

Import JsString JsDate Shell Utils.
Local Open Scope string_scope.

(** [s] holds no occurrence of the code unit [c]. *)
Definition free (c : ascii) (s : string) : Prop :=
  includes s (String c EmptyString) = false.

(** The line [git log] prints for a commit: four fields joined by bars. *)
Definition logLine (h a d m : string) : string :=
  h ++ "|" ++ a ++ "|" ++ d ++ "|" ++ m.

(** A record passes the criteria [filters] on [host]: it passes each
    filter that the criteria make active. *)
Definition passes (host : Host) (filters : CommitFilters) (commit : Commit) : Prop :=
  match filterType filters with
  | All => True
  | Only t => hasType t commit = true
  end
  /\ (if truthy (trim (searchQuery filters))
      then matchesQuery (toLowerCase (searchQuery filters)) commit = Ok true
      else True)
  /\ match dateRange filters with
     | None => True
     | Some range =>
         (if truthy (startDate range)
          then notBefore host (startDate range) commit = true else True)
         /\ (if truthy (endDate range)
             then notAfter host (endDate range) commit = true else True)
     end.

(** Local time on [host] is at one offset from UTC at all times. *)
Definition fixedOffset (host : Host) : Prop :=
  exists offset, forall t isUTC, LocalTZA host t isUTC = offset.

(** The calendar day of a record's date, when it is a date. *)
Definition dayOf (value : option string) : option Z :=
  match value with
  | Some s => isoDay s
  | None => None
  end.

(** The record's day is the day [start] or a later one. *)
Definition onOrAfter (start : string) (commit : Commit) : bool :=
  match dayOf (date commit), isoDay start with
  | Some d, Some s => (s <=? d)%Z
  | _, _ => false
  end.

(** The record's day is before the day after [end_]. *)
Definition beforeNextDay (end_ : string) (commit : Commit) : bool :=
  match dayOf (date commit), isoDay end_ with
  | Some d, Some e => (d <? e + 1)%Z
  | _, _ => false
  end.

(** Criteria that filter on dates only. *)
Definition dateCriteria (startDate endDate : string) : CommitFilters :=
  {| filterType := All; searchQuery := "";
     dateRange := Some {| startDate := startDate; endDate := endDate |} |}.

(** A record with the date [d]. *)
Definition dated (d : string) : Commit :=
  {| hash := Some "abc123"; author := Some "Alice"; date := Some d;
     message := "feat: add login"; type := Feature |}.

(** A repository with 42 commits whose [git log] fails. *)
Definition logFails : Exec :=
  fun cmd =>
    match cmd with
    | GitRevListCount => Ok "42"
    | GitLog _ _ => Throw ExecError
    end.

(** The component before its first fetch. *)
Definition mounted : World Changelog.State :=
  {| calls := []; state := Changelog.initialState |}.

End Terms.

(** ** Vocabulary of the further statements *)

Module MoreTerms.

Import JsString JsDate Shell Utils.
Local Open Scope string_scope.

(** Every code unit of [s] is white space. *)
Fixpoint allWhite (s : string) : bool :=
  match s with
  | EmptyString => true
  | String c s' => isWhiteSpace c && allWhite s'
  end.

(** The verdict of the search callback, an exception counting as no. *)
Definition found (query : string) (commit : Commit) : bool :=
  match matchesQuery query commit with
  | Ok keep => keep
  | Throw _ => false
  end.

(** A record passes every filter that the criteria make active. *)
Definition accepts (host : Host) (filters : CommitFilters) (commit : Commit) : bool :=
  match filterType filters with
  | All => true
  | Only t => hasType t commit
  end
  && (if truthy (trim (searchQuery filters))
      then found (toLowerCase (searchQuery filters)) commit
      else true)
  && match dateRange filters with
     | None => true
     | Some range =>
         (if truthy (startDate range)
          then notBefore host (startDate range) commit else true)
         && (if truthy (endDate range)
             then notAfter host (endDate range) commit else true)
     end.




(** A list of integers in strictly increasing order. *)
Fixpoint increasing (l : list Z) : Prop :=
  match l with
  | [] => True
  | x :: rest =>
      match rest with
      | [] => True
      | y :: _ => (x < y)%Z /\ increasing rest
      end
  end.

End MoreTerms.

(** * Properties *)

Import JsString JsDate Shell Utils Terms.
Local Open Scope string_scope.

(** ** The classifier *)

(** Runs through a chain of conditions on the lowered message [lm], oldest
    first: each condition is decided both ways, and a branch is closed as
    soon as the two sides agree. *)
Ltac walk_rules lm :=
  repeat
    (cbv beta iota;
     first
       [ reflexivity
       | match goal with
         | |- context [startsWith lm ?k || includes lm ?j] =>
             destruct (startsWith lm k || includes lm j)
         | |- context [includes lm ?k] =>
             destruct (includes lm k); cbn [orb]
         end ]).

Lemma detectCommitType_classify (message : string) :
  detectCommitType message = Spec.classify message.
Proof.
  unfold detectCommitType, Spec.classify.
  set (lm := toLowerCase message).
  cbv [Spec.step1 Spec.step2 Spec.firstMatch Spec.primaryRules
       Spec.secondaryRules Spec.primaryMatch Spec.secondaryMatch
       find existsb option_map fst snd append].
  walk_rules lm.
Qed.

Lemma step1_decides (message : string) (category : CommitType) :
  Spec.step1 (toLowerCase message) = Some category ->
  detectCommitType message = category.
Proof.
  intros H. rewrite detectCommitType_classify.
  unfold Spec.classify. now rewrite H.
Qed.

(** C1.  [detectCommitType] is the ordered algorithm of section 4.3: it
    agrees on every message with the first-match reading of the two rule
    lists; a message that a step-1 rule matches gets that rule's category
    whatever substrings of step 2 it contains; the result depends on the
    message only through its lower-case form; and ["fix: add retry"] is
    classified [Fix]. *)
Theorem detectCommitType_ordered_rules :
  (forall message, detectCommitType message = Spec.classify message)
  /\ (forall message category,
        Spec.step1 (toLowerCase message) = Some category ->
        detectCommitType message = category)
  /\ (forall m1 m2,
        toLowerCase m1 = toLowerCase m2 ->
        detectCommitType m1 = detectCommitType m2)
  /\ Spec.step2 (toLowerCase "fix: add retry") = Some Feature
  /\ detectCommitType "fix: add retry" = Fix.
Proof.
  split; [exact detectCommitType_classify|].
  split; [exact step1_decides|].
  split; [|split; reflexivity].
  intros m1 m2 H. unfold detectCommitType. now rewrite H.
Qed.

Lemma detectCommitType_ordered_rules_witness :
  Spec.step1 (toLowerCase "Fix: add retry") = Some Fix
  /\ detectCommitType "Fix: add retry" = Fix
  /\ detectCommitType "FIX: ADD RETRY" = detectCommitType "fix: add retry".
Proof.
  split; [reflexivity|].
  split.
  - apply (proj1 (proj2 detectCommitType_ordered_rules) "Fix: add retry" Fix).
    reflexivity.
  - apply (proj1 (proj2 (proj2 detectCommitType_ordered_rules))).
    reflexivity.
Defined.

(** ** The parser *)

Section SplitJoin.

Variable sep : ascii.

Lemma free_cons (c : ascii) (s : string) :
  free sep (String c s) <-> Ascii.eqb c sep = false /\ free sep s.
Proof.
  unfold free. cbn [includes startsWith].
  rewrite andb_true_r, orb_false_iff. tauto.
Qed.

Lemma split_nonempty (s : string) : split s sep <> [].
Proof.
  destruct s as [|c s]; cbn [split]; [discriminate|].
  destruct (Ascii.eqb c sep); [discriminate|].
  destruct (split s sep); discriminate.
Qed.

Lemma split_free (s : string) : free sep s -> split s sep = [s].
Proof.
  induction s as [|c s IH]; intros H; [reflexivity|].
  apply free_cons in H. destruct H as [Hc Hs].
  cbn [split]. rewrite Hc, (IH Hs). reflexivity.
Qed.

Lemma split_app (s t : string) :
  free sep s -> split (s ++ String sep t) sep = s :: split t sep.
Proof.
  induction s as [|c s IH]; intros H.
  - cbn [append split]. now rewrite Ascii.eqb_refl.
  - apply free_cons in H. destruct H as [Hc Hs].
    cbn [append split]. rewrite Hc, (IH Hs). reflexivity.
Qed.

Lemma join_cons (part : string) (parts : list string) :
  parts <> [] ->
  join (part :: parts) (String sep EmptyString)
  = part ++ String sep EmptyString ++ join parts (String sep EmptyString).
Proof.
  destruct parts; [congruence | reflexivity].
Qed.

Lemma join_split (s : string) :
  join (split s sep) (String sep EmptyString) = s.
Proof.
  induction s as [|c s IH]; [reflexivity|].
  cbn [split]. destruct (Ascii.eqb_spec c sep) as [->|Hne].
  - rewrite join_cons by apply split_nonempty. now rewrite IH.
  - pose proof (split_nonempty s) as Hs.
    destruct (split s sep) as [|part parts]; [congruence|].
    destruct parts as [|q r].
    + cbn [join] in *. now rewrite IH.
    + rewrite join_cons in * by discriminate.
      cbn [append] in *. now rewrite IH.
Qed.

Lemma split_join (parts : list string) :
  parts <> [] -> Forall (free sep) parts ->
  split (join parts (String sep EmptyString)) sep = parts.
Proof.
  induction parts as [|part rest IH]; intros Hne Hfree; [congruence|].
  inversion Hfree as [|? ? Hpart Hrest]; subst.
  destruct rest as [|q r].
  - cbn [join]. now apply split_free.
  - rewrite join_cons by discriminate.
    cbn [append].
    rewrite split_app by assumption.
    rewrite IH; [reflexivity | discriminate | assumption].
Qed.

End SplitJoin.

Lemma parseLine_logLine (h a d m : string) :
  free bar h -> free bar a -> free bar d ->
  parseLine (logLine h a d m)
  = {| hash := Some h; author := Some a; date := Some d;
       message := m; type := detectCommitType m |}.
Proof.
  intros Hh Ha Hd. unfold parseLine, logLine.
  change "|" with (String bar EmptyString).
  cbn [append].
  rewrite (split_app _ Hh), (split_app _ Ha), (split_app _ Hd).
  cbn [nth_error skipn]. now rewrite join_split.
Qed.

Lemma parseGitLog_lines (lines : list string) :
  Forall (free newline) lines ->
  parseGitLog (join lines (String newline EmptyString))
  = map parseLine (filter nonBlank lines).
Proof.
  intros Hfree. unfold parseGitLog.
  destruct lines as [|l ls]; [reflexivity|].
  rewrite split_join; [reflexivity | discriminate | assumption].
Qed.

(** C2.  On a text whose lines are [lines], [parseGitLog] gives one record
    per non-blank line, in the order of the lines, and none for a blank
    line; the record of a line [h|a|d|m] whose first three fields hold no
    bar has exactly these four fields, with a message that may hold bars,
    and the category [detectCommitType m]; so a text that is one such
    non-blank line parses to exactly that record, and the text of section 8
    parses to its one record. *)
Theorem parseGitLog_well_formed :
  (forall lines,
     Forall (free newline) lines ->
     parseGitLog (join lines (String newline EmptyString))
     = map parseLine (filter nonBlank lines))
  /\ (forall h a d m,
        free bar h -> free bar a -> free bar d ->
        parseLine (logLine h a d m)
        = {| hash := Some h; author := Some a; date := Some d;
             message := m; type := detectCommitType m |})
  /\ (forall h a d m,
        free bar h -> free bar a -> free bar d ->
        free newline (logLine h a d m) ->
        nonBlank (logLine h a d m) = true ->
        parseGitLog (logLine h a d m)
        = [ {| hash := Some h; author := Some a; date := Some d;
               message := m; type := detectCommitType m |} ])
  /\ parseGitLog
       ("abc123|Alice|2024-01-05|feat: add login"
        ++ String newline (String newline EmptyString))
     = [ {| hash := Some "abc123"; author := Some "Alice";
            date := Some "2024-01-05"; message := "feat: add login";
            type := Feature |} ].
Proof.
  split; [exact parseGitLog_lines|].
  split; [exact parseLine_logLine|].
  split; [|reflexivity].
  intros h a d m Hh Ha Hd Hnl Hnb.
  pose proof (parseGitLog_lines (lines := [logLine h a d m])) as H.
  cbn [join filter map] in H. rewrite Hnb in H.
  rewrite H by (constructor; [assumption | constructor]).
  cbn [map]. now rewrite parseLine_logLine.
Qed.

Lemma parseGitLog_well_formed_witness :
  parseGitLog (logLine "9f3c2ab" "Bob" "2024-03-09" "fix: a|b parser")
  = [ {| hash := Some "9f3c2ab"; author := Some "Bob";
         date := Some "2024-03-09"; message := "fix: a|b parser";
         type := Fix |} ]
  /\ parseGitLog
       (join [logLine "1" "A" "2024-01-02" "docs: x"; "  ";
              logLine "2" "B" "2024-01-01" "y"]
             (String newline EmptyString))
     = [ parseLine (logLine "1" "A" "2024-01-02" "docs: x");
         parseLine (logLine "2" "B" "2024-01-01" "y") ].
Proof.
  split.
  - apply (proj1 (proj2 (proj2 parseGitLog_well_formed))
             "9f3c2ab" "Bob" "2024-03-09" "fix: a|b parser");
      reflexivity.
  - apply (proj1 parseGitLog_well_formed
             [logLine "1" "A" "2024-01-02" "docs: x"; "  ";
              logLine "2" "B" "2024-01-01" "y"]).
    repeat constructor.
Defined.

Lemma parseLine_one_part (line : string) :
  free bar line ->
  parseLine line
  = {| hash := Some line; author := None; date := None;
       message := ""; type := Other |}.
Proof.
  intros H. unfold parseLine. now rewrite (split_free H).
Qed.

Lemma parseLine_two_parts (h a : string) :
  free bar h -> free bar a ->
  parseLine (h ++ "|" ++ a)
  = {| hash := Some h; author := Some a; date := None;
       message := ""; type := Other |}.
Proof.
  intros Hh Ha. unfold parseLine.
  change "|" with (String bar EmptyString). cbn [append].
  now rewrite (split_app _ Hh), (split_free Ha).
Qed.

(** C3.  What [parseGitLog] does with a line of fewer than four parts: it
    still gives one record, whose message is the empty string, but the
    fields the line lacks among author and date are [undefined], not the
    empty string.  A line without a bar gives [undefined] for both, a line
    with one bar for the date; and [filterCommits] with a search text that
    the message does not contain throws a [TypeError] on such a record. *)
Theorem parseGitLog_short_line :
  (forall line,
     free bar line ->
     parseLine line
     = {| hash := Some line; author := None; date := None;
          message := ""; type := Other |})
  /\ (forall h a,
        free bar h -> free bar a ->
        parseLine (h ++ "|" ++ a)
        = {| hash := Some h; author := Some a; date := None;
             message := ""; type := Other |})
  /\ parseGitLog "abc123"
     = [ {| hash := Some "abc123"; author := None; date := None;
            message := ""; type := Other |} ]
  /\ map author (parseGitLog "abc123") <> [Some ""]
  /\ filterCommits utcHost (parseGitLog "abc123")
       {| filterType := All; searchQuery := "login"; dateRange := None |}
     = Throw TypeError.
Proof.
  split; [exact parseLine_one_part|].
  split; [exact parseLine_two_parts|].
  split; [reflexivity|].
  split; [discriminate | reflexivity].
Qed.

Lemma parseGitLog_short_line_witness :
  parseLine "abc123"
  = {| hash := Some "abc123"; author := None; date := None;
       message := ""; type := Other |}
  /\ parseLine ("abc123" ++ "|" ++ "Alice")
     = {| hash := Some "abc123"; author := Some "Alice"; date := None;
          message := ""; type := Other |}.
Proof.
  split.
  - apply (proj1 parseGitLog_short_line "abc123"). reflexivity.
  - apply (proj1 (proj2 parseGitLog_short_line) "abc123" "Alice"); reflexivity.
Defined.

(** ** The two classifiers *)

Lemma classifiers_agree_on_step1 (message : string) (category : CommitType) :
  Spec.step1 (toLowerCase message) = Some category ->
  Changelog.detectCommitType message = category.
Proof.
  unfold Changelog.detectCommitType.
  set (lm := toLowerCase message).
  cbv [Spec.step1 Spec.firstMatch Spec.primaryRules Spec.primaryMatch
       find option_map fst snd append].
  repeat
    match goal with
    | |- context [startsWith lm ?k || includes lm ?j] =>
        destruct (startsWith lm k || includes lm j)
    end;
    intros H; inversion H; reflexivity.
Qed.

Lemma classifiers_agree_without_step2 (message : string) :
  Spec.step2 (toLowerCase message) = None ->
  Changelog.detectCommitType message = detectCommitType message.
Proof.
  unfold Changelog.detectCommitType, detectCommitType.
  set (lm := toLowerCase message).
  cbv [Spec.step2 Spec.firstMatch Spec.secondaryRules Spec.secondaryMatch
       find existsb option_map fst snd].
  intros H.
  repeat
    match goal with
    | |- context [startsWith lm ?k || includes lm ?j] =>
        destruct (startsWith lm k || includes lm j); [reflexivity|]
    end.
  repeat
    match type of H with
    | context [includes lm ?k] =>
        destruct (includes lm k); cbn [orb] in H |- *; try discriminate H
    end.
  reflexivity.
Qed.

(** C4.  The classifier of utils.ts and the one the Changelog component
    defines for itself differ: the component's has no secondary substring
    checks, so it answers [Other] on ["add login"] where utils.ts answers
    [Feature].  The two agree on every message that a step-1 rule matches
    and on every message that holds none of the step-2 substrings. *)
Theorem classifiers_differ :
  detectCommitType "add login" = Feature
  /\ Changelog.detectCommitType "add login" = Other
  /\ (forall message category,
        Spec.step1 (toLowerCase message) = Some category ->
        Changelog.detectCommitType message = detectCommitType message)
  /\ (forall message,
        Spec.step2 (toLowerCase message) = None ->
        Changelog.detectCommitType message = detectCommitType message).
Proof.
  split; [reflexivity|]. split; [reflexivity|].
  split; [|exact classifiers_agree_without_step2].
  intros message category H.
  now rewrite (classifiers_agree_on_step1 _ H), (step1_decides _ H).
Qed.

Lemma classifiers_differ_witness :
  Changelog.detectCommitType "feat: add login" = detectCommitType "feat: add login"
  /\ Changelog.detectCommitType "bump version" = detectCommitType "bump version".
Proof.
  split.
  - apply (proj1 (proj2 (proj2 classifiers_differ)) "feat: add login" Feature).
    reflexivity.
  - apply (proj2 (proj2 (proj2 classifiers_differ)) "bump version").
    reflexivity.
Defined.

(** ** The filter *)

Section Filter.

Variable host : Host.

Lemma filter_fixed (A : Type) (p : A -> bool) (l : list A) :
  Forall (fun x => p x = true) l -> filter p l = l.
Proof.
  induction 1 as [|x l Hx _ IH]; cbn [filter]; [reflexivity|].
  now rewrite Hx, IH.
Qed.

Lemma filter_sat (A : Type) (p : A -> bool) (l : list A) :
  Forall (fun x => p x = true) (filter p l).
Proof.
  apply Forall_forall. intros x Hx. now apply filter_In in Hx.
Qed.

Lemma filter_keeps (A : Type) (Q : A -> Prop) (p : A -> bool) (l : list A) :
  Forall Q l -> Forall Q (filter p l).
Proof.
  rewrite !Forall_forall. intros H x Hx. apply filter_In in Hx. now apply H.
Qed.

Lemma filterR_fixed (A : Type) (p : A -> Result bool) (l : list A) :
  Forall (fun x => p x = Ok true) l -> filterR p l = Ok l.
Proof.
  induction 1 as [|x l Hx _ IH]; cbn [filterR bind]; [reflexivity|].
  now rewrite Hx, IH.
Qed.

Lemma filterR_inv (A : Type) (p : A -> Result bool) (x : A) (l kept : list A) :
  filterR p (x :: l) = Ok kept ->
  exists keep rest,
    p x = Ok keep /\ filterR p l = Ok rest
    /\ kept = if keep then x :: rest else rest.
Proof.
  cbn [filterR]. destruct (p x) as [keep|e]; cbn [bind]; [|discriminate].
  destruct (filterR p l) as [rest|e]; cbn [bind]; [|discriminate].
  intros H. inversion H. now exists keep, rest.
Qed.

Lemma filterR_sat (A : Type) (p : A -> Result bool) (l kept : list A) :
  filterR p l = Ok kept -> Forall (fun x => p x = Ok true) kept.
Proof.
  revert kept. induction l as [|x l IH]; intros kept H.
  - inversion H. constructor.
  - apply filterR_inv in H. destruct H as (keep & rest & Hx & Hrest & ->).
    destruct keep; [constructor|]; auto.
Qed.

Lemma filterR_keeps (A : Type) (Q : A -> Prop) (p : A -> Result bool)
    (l kept : list A) :
  filterR p l = Ok kept -> Forall Q l -> Forall Q kept.
Proof.
  revert kept. induction l as [|x l IH]; intros kept H HQ.
  - inversion H. constructor.
  - apply filterR_inv in H. destruct H as (keep & rest & Hx & Hrest & ->).
    inversion HQ; subst. destruct keep; [constructor|]; auto.
Qed.

Lemma filterCommits_passes (commits kept : list Commit) (filters : CommitFilters) :
  filterCommits host commits filters = Ok kept ->
  Forall (passes host filters) kept.
Proof.
  unfold filterCommits, passes. intros H.
  repeat apply Forall_and.
  - destruct (filterType filters) as [|t]; [now apply Forall_forall|].
    pose proof (filter_sat (hasType t) commits) as Ht. revert H Ht.
    generalize (filter (hasType t) commits). intros l H Ht.
    destruct (truthy (trim (searchQuery filters))); cbn [bind] in H.
    + destruct (filterR _ l) as [l'|e] eqn:Hs; cbn [bind] in H; [|discriminate].
      apply (filterR_keeps _ Hs) in Ht.
      destruct (dateRange filters) as [range|]; inversion H; subst; auto.
      repeat (destruct (truthy _)); auto using filter_keeps.
    + destruct (dateRange filters) as [range|]; inversion H; subst; auto.
      repeat (destruct (truthy _)); auto using filter_keeps.
  - revert H. generalize (match filterType filters with
                          | All => commits
                          | Only t => filter (hasType t) commits end).
    intros l H.
    destruct (truthy (trim (searchQuery filters))); cbn [bind] in H;
      [|now apply Forall_forall].
    destruct (filterR _ l) as [l'|e] eqn:Hs; cbn [bind] in H; [|discriminate].
    apply filterR_sat in Hs.
    destruct (dateRange filters) as [range|]; inversion H; subst; auto.
    repeat (destruct (truthy _)); auto using filter_keeps.
  - revert H. generalize (match filterType filters with
                          | All => commits
                          | Only t => filter (hasType t) commits end).
    intros l H.
    assert (exists l', kept =
              match dateRange filters with
              | None => l'
              | Some range =>
                  let r := if truthy (startDate range)
                           then filter (notBefore host (startDate range)) l'
                           else l' in
                  if truthy (endDate range)
                  then filter (notAfter host (endDate range)) r else r
              end) as [l' ->].
    { destruct (truthy (trim (searchQuery filters))); cbn [bind] in H.
      - destruct (filterR _ l) as [l'|e]; cbn [bind] in H; [|discriminate].
        exists l'. destruct (dateRange filters); now inversion H.
      - exists l. destruct (dateRange filters); now inversion H. }
    destruct (dateRange filters) as [range|]; [|now apply Forall_forall].
    cbv zeta. apply Forall_and.
    + destruct (truthy (startDate range)); [|now apply Forall_forall].
      destruct (truthy (endDate range)); auto using filter_keeps, filter_sat.
    + destruct (truthy (endDate range)); [|now apply Forall_forall].
      apply filter_sat.
Qed.

Lemma passes_filterCommits (kept : list Commit) (filters : CommitFilters) :
  Forall (passes host filters) kept ->
  filterCommits host kept filters = Ok kept.
Proof.
  unfold passes. intros H.
  apply Forall_and_inv in H. destruct H as [Ht H].
  apply Forall_and_inv in H. destruct H as [Hq Hd].
  unfold filterCommits.
  assert (match filterType filters with
          | All => kept
          | Only t => filter (hasType t) kept end = kept) as ->.
  { destruct (filterType filters); [reflexivity|]. now apply filter_fixed. }
  assert ((if truthy (trim (searchQuery filters))
           then filterR (matchesQuery (toLowerCase (searchQuery filters))) kept
           else Ok kept) = Ok kept) as ->.
  { destruct (truthy _); [|reflexivity]. now apply filterR_fixed. }
  cbn [bind].
  destruct (dateRange filters) as [range|]; [|reflexivity].
  apply Forall_and_inv in Hd. destruct Hd as [Hs He].
  cbv zeta.
  destruct (truthy (startDate range)), (truthy (endDate range));
    try rewrite (filter_fixed (notBefore host (startDate range))) by assumption;
    try rewrite (filter_fixed (notAfter host (endDate range))) by assumption;
    reflexivity.
Qed.

(** C9.  Filtering what [filterCommits] returned, by the same criteria,
    returns it unchanged; and when the first call throws there is nothing
    to filter again. *)
Theorem filterCommits_idempotent (commits : list Commit) (filters : CommitFilters) :
  (filtered <- filterCommits host commits filters ;;
   filterCommits host filtered filters)%js
  = filterCommits host commits filters.
Proof.
  destruct (filterCommits host commits filters) as [kept|e] eqn:H;
    cbn [bind]; [|reflexivity].
  apply passes_filterCommits. now apply filterCommits_passes in H.
Qed.

(** C8.  With the category [All], a search text that is empty or white
    space only, and no date range, [filterCommits] returns its input: the
    same records in the same order. *)
Theorem filterCommits_no_criteria (commits : list Commit) (searchText : string) :
  trim searchText = "" ->
  filterCommits host commits
    {| filterType := All; searchQuery := searchText; dateRange := None |}
  = Ok commits.
Proof.
  intros H. unfold filterCommits. cbn [filterType searchQuery dateRange].
  now rewrite H.
Qed.

End Filter.

Lemma filterCommits_no_criteria_witness :
  filterCommits berlinHost (parseGitLog "abc123")
    {| filterType := All; searchQuery := "   "; dateRange := None |}
  = Ok (parseGitLog "abc123").
Proof.
  apply (filterCommits_no_criteria berlinHost (parseGitLog "abc123") "   ").
  reflexivity.
Defined.

(** ** The date range *)

Lemma filter_filter_andb (A : Type) (p q : A -> bool) (l : list A) :
  filter q (filter p l) = filter (fun x => p x && q x) l.
Proof.
  induction l as [|x l IH]; [reflexivity|].
  cbn [filter]. destruct (p x); cbn [filter andb]; [|exact IH].
  destruct (q x); now rewrite IH.
Qed.

Section Calendar.

Local Open Scope Z_scope.

(** [civilFromDays] gives a month of the year, and [daysFromCivil] takes
    its result back to the day number. *)
Lemma civilFromDays_spec (day : Z) :
  1 <= snd (fst (civilFromDays day)) <= 12
  /\ daysFromCivil (fst (fst (civilFromDays day)))
                   (snd (fst (civilFromDays day)))
                   (snd (civilFromDays day)) = day.
Proof.
  unfold civilFromDays, daysFromCivil. cbv zeta. cbn [fst snd].
  set (z := day + 719468).
  set (era := z / 146097).
  set (doe := z - era * 146097).
  assert (0 <= doe <= 146096) as Hdoe
    by (subst doe era; pose proof (Z.mod_pos_bound z 146097);
        pose proof (Z.div_mod z 146097); lia).
  assert (day = era * 146097 + doe - 719468) as Hday by (subst doe z; lia).
  clearbody doe era. clear z.
  set (yoe := (doe - doe / 1460 + doe / 36524 - doe / 146096) / 365).
  assert (0 <= yoe <= 399) as Hyoe by (subst yoe; Z.div_mod_to_equations; lia).
  set (doy := doe - (365 * yoe + yoe / 4 - yoe / 100)).
  assert (0 <= doy <= 365) as Hdoy
    by (subst doy yoe; Z.div_mod_to_equations; lia).
  assert (doe = yoe * 365 + yoe / 4 - yoe / 100 + doy) as Hdoe'
    by (subst doy; lia).
  clearbody doy. clearbody yoe.
  set (mp := (5 * doy + 2) / 153).
  assert (0 <= mp <= 11) as Hmp by (subst mp; Z.div_mod_to_equations; lia).
  clearbody mp.
  destruct (Z.ltb_spec mp 10).
  - rewrite (proj2 (Z.leb_gt (mp + 3) 2)) by lia.
    replace (mp + 3 - 3) with mp by lia.
    replace ((yoe + era * 400) / 400) with era by (Z.div_mod_to_equations; lia).
    replace (yoe + era * 400 - era * 400) with yoe by lia.
    lia.
  - rewrite (proj2 (Z.leb_le (mp - 9) 2)) by lia.
    replace (mp - 9 + 9) with mp by lia.
    replace (yoe + era * 400 + 1 - 1) with (yoe + era * 400) by lia.
    replace ((yoe + era * 400) / 400) with era by (Z.div_mod_to_equations; lia).
    replace (yoe + era * 400 - era * 400) with yoe by lia.
    lia.
Qed.

Lemma daysFromCivil_shift (y m d k : Z) :
  daysFromCivil y m (d + k) = daysFromCivil y m d + k.
Proof.
  unfold daysFromCivil. cbv zeta. lia.
Qed.

(** The day of month after [t]'s, in [t]'s month, is on the day after
    [t]'s. *)
Lemma MakeDay_next (t : Z) :
  MakeDay (YearFromTime t) (MonthFromTime t) (DateFromTime t + 1) = Day t + 1.
Proof.
  unfold MakeDay, YearFromTime, MonthFromTime, DateFromTime. cbv zeta.
  destruct (civilFromDays_spec (Day t)) as [Hm Hday].
  set (m := snd (fst (civilFromDays (Day t)))) in *.
  replace ((m - 1) / 12) with 0 by (Z.div_mod_to_equations; lia).
  replace ((m - 1) mod 12 + 1) with m by (Z.div_mod_to_equations; lia).
  rewrite Z.add_0_r.
  replace (daysFromCivil _ m 1 + (snd (civilFromDays (Day t)) + 1) - 1)
    with (daysFromCivil (fst (fst (civilFromDays (Day t)))) m
            (1 + (snd (civilFromDays (Day t)) - 1)) + 1)
    by (rewrite daysFromCivil_shift; lia).
  replace (1 + (snd (civilFromDays (Day t)) - 1))
    with (snd (civilFromDays (Day t))) by lia.
  now rewrite Hday.
Qed.

Lemma MakeDate_next (t : Z) :
  MakeDate (Day t + 1) (TimeWithinDay t) = t + msPerDay.
Proof.
  unfold MakeDate, Day, TimeWithinDay, msPerDay.
  Z.div_mod_to_equations. lia.
Qed.

(** [d.setDate(d.getDate() + 1)] moves the local time of [d] forward by
    [msPerDay], on every host. *)
Lemma setDate_next (host : Host) (t : Z) :
  setDate host (Some t) (plus1 (getDate host (Some t)))
  = TimeClip (UTC host (LocalTime host t + msPerDay)).
Proof.
  cbn [getDate plus1 setDate]. cbv zeta.
  now rewrite MakeDay_next, MakeDate_next.
Qed.

Lemma digit_range (c : ascii) (n : Z) : digit c = Some n -> 0 <= n <= 9.
Proof.
  unfold digit.
  destruct (_ && _)%bool eqn:H; [|discriminate].
  apply andb_prop in H. destruct H as [H1 H2].
  apply Nat.leb_le in H1, H2. intros E. inversion E. lia.
Qed.

Lemma daysInMonth_le (y m : Z) : daysInMonth y m <= 31.
Proof.
  unfold daysInMonth.
  destruct (m =? 2); [destruct (isLeapYear y); lia|].
  destruct (_ || _)%bool; lia.
Qed.

Lemma isoFields_range (s : string) (y m d : Z) :
  isoFields s = Some (y, m, d) ->
  0 <= y <= 9999 /\ 1 <= m <= 12 /\ 1 <= d <= 31.
Proof.
  unfold isoFields.
  do 10 (destruct s as [|? s]; [discriminate|]).
  destruct s; [|discriminate].
  repeat match goal with
         | |- context [digit ?c] =>
             let E := fresh "E" in
             destruct (digit c) eqn:E; [apply digit_range in E | discriminate]
         end.
  cbv zeta.
  match goal with
  | |- context [Some (?yy, ?mm, ?dd)] =>
      set (Y := yy) in *; set (M := mm) in *; set (D := dd) in *
  end.
  destruct (_ && _)%bool eqn:H; [|discriminate].
  repeat (apply andb_prop in H; destruct H as [H ?]).
  repeat match goal with
         | H : (_ <=? _) = true |- _ => apply Z.leb_le in H
         end.
  pose proof (daysInMonth_le Y M).
  intros E'. injection E' as <- <- <-. subst Y M D. lia.
Qed.

Lemma isoDay_range (s : string) (day : Z) :
  isoDay s = Some day -> -719528 <= day <= 2932896.
Proof.
  unfold isoDay.
  destruct (isoFields s) as [[[y m] d]|] eqn:H; [|discriminate].
  apply isoFields_range in H. intros [= <-].
  unfold daysFromCivil. cbv zeta.
  destruct (Z.leb_spec m 2); Z.div_mod_to_equations; lia.
Qed.

Lemma TimeClip_in_range (t : Z) :
  Z.abs t <= 8640000000000000 -> TimeClip t = Some t.
Proof.
  intros H. unfold TimeClip.
  now rewrite Z.gtb_ltb, (proj2 (Z.ltb_ge _ _)) by lia.
Qed.

End Calendar.

Section FixedOffset.

Variable host : Host.
Hypothesis fixed : fixedOffset host.
Hypothesis iso : forall s, Date_parse host s = parseIsoDate s.

Lemma next_local_day (t : Z) :
  (Z.abs (t + msPerDay) <= 8640000000000000)%Z ->
  setDate host (Some t) (plus1 (getDate host (Some t)))
  = Some (t + msPerDay)%Z.
Proof.
  intros Ht. rewrite setDate_next.
  destruct fixed as [offset Hoff].
  unfold UTC, LocalTime. rewrite !Hoff.
  replace (t + offset + msPerDay - offset)%Z with (t + msPerDay)%Z by lia.
  now apply TimeClip_in_range.
Qed.

Lemma newDate_day (value : option string) :
  newDate host value = option_map (fun day => day * msPerDay)%Z (dayOf value).
Proof.
  destruct value as [s|]; [|reflexivity]. cbn [newDate dayOf].
  rewrite iso. unfold parseIsoDate.
  destruct (isoDay s) as [day|] eqn:H; [|reflexivity].
  cbn [option_map]. apply isoDay_range in H.
  apply TimeClip_in_range. unfold msPerDay. lia.
Qed.

Lemma notBefore_onOrAfter (start : string) (commit : Commit) :
  notBefore host start commit = onOrAfter start commit.
Proof.
  unfold notBefore, onOrAfter. rewrite !newDate_day. cbn [dayOf].
  destruct (dayOf (date commit)) as [d|], (isoDay start) as [s|];
    cbn [option_map date_ge]; try reflexivity.
  unfold msPerDay.
  destruct (Z.leb_spec (s * 86400000) (d * 86400000)), (Z.leb_spec s d);
    reflexivity || lia.
Qed.

Lemma notAfter_beforeNextDay (end_ : string) (commit : Commit) :
  notAfter host end_ commit = beforeNextDay end_ commit.
Proof.
  unfold notAfter, beforeNextDay. rewrite !newDate_day. cbn [dayOf].
  destruct (isoDay end_) as [e|] eqn:He; cbn [option_map].
  - apply isoDay_range in He.
    rewrite next_local_day by (unfold msPerDay; lia).
    destruct (dayOf (date commit)) as [d|]; cbn [option_map date_lt];
      [|reflexivity].
    unfold msPerDay.
    destruct (Z.ltb_spec (d * 86400000) (e * 86400000 + 86400000)),
             (Z.ltb_spec d (e + 1)); reflexivity || lia.
  - destruct (dayOf (date commit)); reflexivity.
Qed.

(** On a host whose local time keeps one offset from UTC and that reads
    date-only strings, the date filter keeps exactly the records that are
    not before [start], when [start] is not empty, and before the day after
    [end_], when [end_] is not empty. *)
Theorem filterCommits_date_range_fixed_offset
    (commits : list Commit) (start end_ : string) :
  filterCommits host commits (dateCriteria start end_)
  = Ok (filter
          (fun commit =>
             (negb (truthy start) || onOrAfter start commit)
             && (negb (truthy end_) || beforeNextDay end_ commit))
          commits).
Proof.
  unfold filterCommits, dateCriteria.
  cbn [filterType searchQuery dateRange startDate endDate trim trimStart
       trimEnd truthy bind].
  f_equal.
  destruct (truthy start), (truthy end_); cbn [negb orb andb].
  - rewrite filter_filter_andb. apply filter_ext. intros commit.
    now rewrite notBefore_onOrAfter, notAfter_beforeNextDay.
  - apply filter_ext. intros commit.
    now rewrite notBefore_onOrAfter, andb_true_r.
  - apply filter_ext. intros commit. apply notAfter_beforeNextDay.
  - symmetry. apply filter_fixed. now apply Forall_forall.
Qed.

(** A record dated [end_] is kept and a record dated the day after is
    dropped. *)
Corollary end_day_inclusive_fixed_offset (d end_ : string) (day : Z) :
  isoDay end_ = Some day ->
  (isoDay d = Some day ->
   filterCommits host [dated d] (dateCriteria "" end_) = Ok [dated d])
  /\ (isoDay d = Some (day + 1)%Z ->
      filterCommits host [dated d] (dateCriteria "" end_) = Ok []).
Proof.
  intros He.
  assert (truthy end_ = true) as Ht.
  { destruct end_; [discriminate He | reflexivity]. }
  split; intros Hd; rewrite filterCommits_date_range_fixed_offset;
    cbn [filter truthy negb orb andb]; rewrite Ht; cbn [negb orb];
    unfold beforeNextDay, dated; cbn [date dayOf]; rewrite Hd, He.
  - now rewrite (proj2 (Z.ltb_lt day (day + 1))) by lia.
  - now rewrite (proj2 (Z.ltb_ge (day + 1) (day + 1))) by lia.
Qed.

End FixedOffset.

(** C5.  The upper bound of the date filter on a host whose clocks change.
    On the host [berlinHost], with the end date 27 October 2024 (the day
    summer time ends), the bound the code computes is 01:00 UTC of
    28 October, so a record dated 28 October, the day after the end date,
    is kept.  On a host on UTC the same record is dropped, and the record
    dated the end date is kept on both. *)
Theorem filterCommits_end_bound_clock_change :
  isoDay "2024-10-28" = option_map Z.succ (isoDay "2024-10-27")
  /\ getDate berlinHost (newDate berlinHost (Some "2024-10-27")) = Some 27%Z
  /\ setDate berlinHost (newDate berlinHost (Some "2024-10-27")) (Some 28%Z)
     = option_map (fun t => t + msPerHour)%Z
         (newDate berlinHost (Some "2024-10-28"))
  /\ filterCommits berlinHost [dated "2024-10-27"; dated "2024-10-28"]
       (dateCriteria "" "2024-10-27")
     = Ok [dated "2024-10-27"; dated "2024-10-28"]
  /\ filterCommits utcHost [dated "2024-10-27"; dated "2024-10-28"]
       (dateCriteria "" "2024-10-27")
     = Ok [dated "2024-10-27"].
Proof.
  repeat split; vm_compute; reflexivity.
Qed.

(** ** The paginator *)

Section Paginator.

Import Pagination.
Local Open Scope Z_scope.

Lemma pagesFrom_nth (first last : Z) (i : nat) :
  (i < Z.to_nat (last - first + 1))%nat ->
  nth_error (Spec.pagesFrom first last) i = Some (first + Z.of_nat i).
Proof.
  intros Hi. unfold Spec.pagesFrom.
  rewrite nth_error_map, nth_error_seq.
  now rewrite (proj2 (Nat.ltb_lt _ _) Hi).
Qed.

Lemma pagesFrom_length (first last : Z) :
  length (Spec.pagesFrom first last) = Z.to_nat (last - first + 1).
Proof.
  unfold Spec.pagesFrom. now rewrite length_map, length_seq.
Qed.

Lemma pagesFrom_first (first last : Z) :
  first <= last -> nth_error (Spec.pagesFrom first last) 0 = Some first.
Proof.
  intros H. rewrite pagesFrom_nth by lia. f_equal. lia.
Qed.

Lemma pagesFrom_last (first last : Z) :
  first <= last ->
  nth_error (Spec.pagesFrom first last)
            (length (Spec.pagesFrom first last) - 1) = Some last.
Proof.
  intros H. rewrite pagesFrom_length, pagesFrom_nth by lia. f_equal. lia.
Qed.

Lemma pagesFrom_empty (first last : Z) :
  last < first -> Spec.pagesFrom first last = [].
Proof.
  intros H. unfold Spec.pagesFrom.
  replace (Z.to_nat (last - first + 1)) with 0%nat by lia. reflexivity.
Qed.

Lemma getPageRange_window (currentPage totalPages : Z) :
  getPageRange currentPage totalPages
  = Spec.pagesFrom (fst (Spec.window currentPage totalPages maxPageButtons))
                   (snd (Spec.window currentPage totalPages maxPageButtons)).
Proof.
  unfold getPageRange, Spec.window.
  destruct (totalPages <=? maxPageButtons).
  - cbn [fst snd]. unfold arrayFrom, Spec.pagesFrom.
    replace (totalPages - 1 + 1) with totalPages by lia.
    apply map_ext. intros i. lia.
  - destruct (_ >? totalPages); reflexivity.
Qed.

(** The window of section 4.5 in closed form: its bounds, its size, and
    the place of the current page in it. *)
Lemma window_large (currentPage totalPages : Z) :
  maxPageButtons < totalPages ->
  let start0 := Z.max (currentPage - maxPageButtons / 2) 1 in
  let end0 := start0 + maxPageButtons - 1 in
  let end_ := Z.min end0 totalPages in
  let start := if end0 >? totalPages
               then Z.max (end_ - maxPageButtons + 1) 1 else start0 in
  Spec.window currentPage totalPages maxPageButtons = (start, end_)
  /\ 1 <= start /\ end_ <= totalPages /\ end_ - start + 1 = maxPageButtons
  /\ (1 <= currentPage <= totalPages -> start <= currentPage <= end_).
Proof.
  unfold Spec.window, maxPageButtons. intros Hbig.
  change (5 / 2) with 2. cbv zeta.
  rewrite (proj2 (Z.leb_gt _ _)) by lia.
  destruct (Z.gtb_spec (Z.max (currentPage - 2) 1 + 5 - 1) totalPages).
  - rewrite Z.min_r by lia. repeat split; lia.
  - rewrite Z.min_l by lia. repeat split; lia.
Qed.

Lemma window_shape (currentPage totalPages : Z) :
  let w := Spec.window currentPage totalPages maxPageButtons in
  fst w <= snd w \/ (fst w = 1 /\ snd w = totalPages /\ totalPages < 1).
Proof.
  cbv zeta.
  destruct (Z.leb_spec totalPages maxPageButtons) as [Hle|Hgt].
  - unfold Spec.window. rewrite (proj2 (Z.leb_le _ _) Hle). cbn [fst snd]. lia.
  - destruct (window_large currentPage Hgt) as (-> & H1 & H2 & H3 & _).
    cbn [fst snd]. unfold maxPageButtons in *. lia.
Qed.

Lemma pageNumbers_visiblePageNumbers (currentPage totalPages : Z) :
  pageNumbers currentPage totalPages
  = Spec.visiblePageNumbers currentPage totalPages maxPageButtons.
Proof.
  unfold pageNumbers, Spec.visiblePageNumbers.
  rewrite getPageRange_window.
  pose proof (window_shape currentPage totalPages) as Hshape. cbv zeta in Hshape.
  destruct (Spec.window currentPage totalPages maxPageButtons) as [start end_].
  cbn [fst snd] in *.
  destruct Hshape as [Hle | (-> & -> & Hnone)].
  - rewrite pagesFrom_first, pagesFrom_last by assumption.
    unfold Spec.leading, Spec.trailing. cbn [elem_gt elem_lt].
    replace (start - 1 >? 1) with (start >? 2)
      by (rewrite !Z.gtb_ltb; destruct (Z.ltb_spec 2 start), (Z.ltb_spec 1 (start - 1)); lia).
    replace (totalPages - end_ >? 1) with (end_ <? totalPages - 1)
      by (rewrite Z.gtb_ltb; destruct (Z.ltb_spec end_ (totalPages - 1)),
                                      (Z.ltb_spec 1 (totalPages - end_)); lia).
    reflexivity.
  - rewrite pagesFrom_empty by lia.
    unfold Spec.leading, Spec.trailing. cbn [nth_error length elem_gt elem_lt].
    rewrite Z.ltb_irrefl. reflexivity.
Qed.

(** C6.  The pages the Paginator shows, with [maxPageButtons = 5], for a
    current page within [1..totalPages].  With at most five pages: the
    pages [1..totalPages] and nothing else.  With more: the window
    [start..end_] computed as section 4.5 says, which has five pages, lies
    within [1..totalPages] and holds the current page; before it a "page 1"
    control when [start > 1], followed by an ellipsis when [start - 1 > 1];
    after it the same for [totalPages].  In every case this is the sequence
    the specification's algorithm gives, it is what the component renders
    when there is more than one page, and for twelve pages with the sixth
    current it is 1, ellipsis, 4 to 8, ellipsis, 12. *)
Theorem pagination_visible_pages (currentPage totalPages : Z) :
  1 <= currentPage <= totalPages ->
  (totalPages <= maxPageButtons ->
     getPageRange currentPage totalPages = Spec.pagesFrom 1 totalPages
     /\ pageNumbers currentPage totalPages
        = map (pageButton currentPage) (Spec.pagesFrom 1 totalPages))
  /\ (maxPageButtons < totalPages ->
        let start0 := Z.max (currentPage - maxPageButtons / 2) 1 in
        let end0 := start0 + maxPageButtons - 1 in
        let end_ := Z.min end0 totalPages in
        let start := if end0 >? totalPages
                     then Z.max (end_ - maxPageButtons + 1) 1 else start0 in
        getPageRange currentPage totalPages = Spec.pagesFrom start end_
        /\ 1 <= start /\ end_ <= totalPages
        /\ end_ - start + 1 = maxPageButtons
        /\ start <= currentPage <= end_
        /\ pageNumbers currentPage totalPages
           = ((if start >? 1
               then GoToPage 1 :: (if start - 1 >? 1 then [Ellipsis] else [])
               else [])
              ++ map (pageButton currentPage) (Spec.pagesFrom start end_)
              ++ (if end_ <? totalPages
                  then (if totalPages - end_ >? 1 then [Ellipsis] else [])
                       ++ [GoToPage totalPages]
                  else []))%list)
  /\ pageNumbers currentPage totalPages
     = Spec.visiblePageNumbers currentPage totalPages maxPageButtons
  /\ (1 < totalPages ->
      option_map items (Pagination.Pagination currentPage totalPages)
      = Some (Spec.visiblePageNumbers currentPage totalPages maxPageButtons))
  /\ getPageRange 6 12 = [4; 5; 6; 7; 8]
  /\ pageNumbers 6 12
     = [GoToPage 1; Ellipsis;
        PageButton 4 false; PageButton 5 false; PageButton 6 true;
        PageButton 7 false; PageButton 8 false;
        Ellipsis; GoToPage 12].
Proof.
  intros Hcur.
  split; [|split; [|split; [apply pageNumbers_visiblePageNumbers
                          | split; [|split; reflexivity]]]].
  - intros Hsmall.
    rewrite pageNumbers_visiblePageNumbers.
    unfold Spec.visiblePageNumbers. rewrite getPageRange_window.
    unfold Spec.window. rewrite (proj2 (Z.leb_le _ _) Hsmall).
    cbn [fst snd]. split; [reflexivity|].
    unfold Spec.leading, Spec.trailing.
    rewrite Z.ltb_irrefl. cbn [Z.gtb Z.compare app]. now rewrite app_nil_r.
  - intros Hbig. cbv zeta.
    destruct (window_large currentPage Hbig) as (Hw & H1 & H2 & H3 & H4).
    cbv zeta in Hw, H1, H2, H3, H4.
    rewrite pageNumbers_visiblePageNumbers.
    unfold Spec.visiblePageNumbers. rewrite getPageRange_window, Hw.
    cbn [fst snd]. repeat split; try assumption; apply H4; assumption.
  - intros Hmany. unfold Pagination.Pagination.
    rewrite (proj2 (Z.leb_gt _ _) Hmany). cbn [option_map items].
    now rewrite pageNumbers_visiblePageNumbers.
Qed.

End Paginator.

Lemma pagination_visible_pages_witness :
  Pagination.getPageRange 11 12 = Spec.pagesFrom 8 12
  /\ Pagination.pageNumbers 2 3
     = map (Pagination.pageButton 2) (Spec.pagesFrom 1 3).
Proof.
  assert (1 <= 11 <= 12)%Z as H by lia.
  assert (1 <= 2 <= 3)%Z as H' by lia.
  split.
  - apply (proj1 (proj2 (pagination_visible_pages H))). reflexivity.
  - apply (proj1 (pagination_visible_pages H')). discriminate.
Defined.

(** C10.  With at most one page, zero included, the Paginator renders
    nothing, whatever the current page. *)
Theorem pagination_hidden (currentPage totalPages : Z) :
  (totalPages <= 1)%Z ->
  Pagination.Pagination currentPage totalPages = None.
Proof.
  intros H. unfold Pagination.Pagination.
  now rewrite (proj2 (Z.leb_le _ _) H).
Qed.

Lemma pagination_hidden_witness :
  Pagination.Pagination 1 0 = None /\ Pagination.Pagination 7 1 = None.
Proof.
  split; [apply (pagination_hidden 1 (totalPages := 0))
         | apply (pagination_hidden 7 (totalPages := 1))]; discriminate.
Defined.

(** ** The log source *)

Section Fetch.

Variable exec : Exec.

Lemma utils_fetch_count_fails (page perPage : Z) (w : World unit) (e : JsError) :
  exec GitRevListCount = Throw e ->
  Utils.fetchGitHistory exec page perPage w
  = (Throw fetchError,
     {| calls := calls w ++ [GitRevListCount]; state := state w |}).
Proof.
  intros H. unfold Utils.fetchGitHistory, tryCatch, tbind, execPromise, throw.
  now rewrite H.
Qed.

Lemma utils_fetch_log_fails (page perPage : Z) (w : World unit)
    (countOutput : string) (e : JsError) :
  exec GitRevListCount = Ok countOutput ->
  exec (GitLog perPage ((page - 1) * perPage)) = Throw e ->
  Utils.fetchGitHistory exec page perPage w
  = (Throw fetchError,
     {| calls := (calls w ++ [GitRevListCount])
                 ++ [GitLog perPage ((page - 1) * perPage)];
        state := state w |}).
Proof.
  intros Hc Hl. unfold Utils.fetchGitHistory, tryCatch, tbind, execPromise, throw.
  rewrite Hc. cbn [calls state]. now rewrite Hl.
Qed.

Lemma utils_fetch_succeeds (page perPage : Z) (w : World unit)
    (countOutput stdout : string) :
  exec GitRevListCount = Ok countOutput ->
  exec (GitLog perPage ((page - 1) * perPage)) = Ok stdout ->
  Utils.fetchGitHistory exec page perPage w
  = (Ok {| Utils.commits := if truthy (trim stdout) then parseGitLog stdout else [];
           totalCount := parseInt (trim countOutput) |},
     {| calls := (calls w ++ [GitRevListCount])
                 ++ [GitLog perPage ((page - 1) * perPage)];
        state := state w |}).
Proof.
  intros Hc Hl. unfold Utils.fetchGitHistory, tryCatch, tbind, execPromise, ret.
  rewrite Hc. cbn [calls state]. rewrite Hl.
  now destruct (truthy (trim stdout)).
Qed.

(** [fetchGitHistory] of utils.ts returns the records together with the
    count, or throws its one error; it owns no state to leave a part of the
    result in, and it runs each command at most once, none after a
    failure. *)
Lemma utils_fetch_atomic (page perPage : Z) (w : World unit) :
  let outcome := Utils.fetchGitHistory exec page perPage w in
  ((exists history, fst outcome = Ok history)
   \/ fst outcome = Throw fetchError)
  /\ (fst outcome = Throw fetchError <->
      (exists e, exec GitRevListCount = Throw e)
      \/ (exists e, exec (GitLog perPage ((page - 1) * perPage)) = Throw e))
  /\ (exists issued,
        calls (snd outcome) = (calls w ++ issued)%list
        /\ (issued = [GitRevListCount]
            \/ issued = [GitRevListCount; GitLog perPage ((page - 1) * perPage)])).
Proof.
  cbv zeta.
  destruct (exec GitRevListCount) as [countOutput|e] eqn:Hc.
  - destruct (exec (GitLog perPage ((page - 1) * perPage))) as [stdout|e] eqn:Hl.
    + rewrite (@utils_fetch_succeeds page perPage w _ _ Hc Hl). cbn [fst snd calls].
      split; [left; eauto|]. split.
      * split; [discriminate|]. intros [[e He]|[e He]]; discriminate.
      * eexists. rewrite <- app_assoc. split; [reflexivity|]. now right.
    + rewrite (@utils_fetch_log_fails page perPage w _ _ Hc Hl). cbn [fst snd calls].
      split; [now right|]. split.
      * split; [|reflexivity]. intros _. right. eauto.
      * eexists. rewrite <- app_assoc. split; [reflexivity|]. now right.
  - rewrite (@utils_fetch_count_fails page perPage w _ Hc). cbn [fst snd calls].
    split; [now right|]. split.
    + split; [|reflexivity]. intros _. left. eauto.
    + eexists. split; [reflexivity|]. now left.
Qed.

Variable host : Host.

(** The component's [fetchGitHistory] when the count is read and the log
    is not: the count has been stored by then and stays stored, next to the
    error message. *)
Lemma component_fetch_log_fails (page : Z) (w : World Changelog.State)
    (countOutput : string) (e : JsError) :
  exec GitRevListCount = Ok countOutput ->
  exec (GitLog Changelog.COMMITS_PER_PAGE ((page - 1) * Changelog.COMMITS_PER_PAGE))
  = Throw e ->
  let outcome := Changelog.fetchGitHistory host exec page w in
  fst outcome = Ok tt
  /\ Changelog.totalCommits (state (snd outcome)) = parseInt (trim countOutput)
  /\ Changelog.error (state (snd outcome)) = Some Changelog.loadError
  /\ Changelog.loading (state (snd outcome)) = false
  /\ Changelog.commits (state (snd outcome)) = Changelog.commits (state w)
  /\ Changelog.filteredCommits (state (snd outcome))
     = Changelog.filteredCommits (state w).
Proof.
  intros Hc Hl. cbv zeta.
  unfold Changelog.fetchGitHistory, tryCatch, tbind, execPromise,
    Changelog.setLoading, Changelog.setTotalCommits, Changelog.setError, modify.
  cbn [calls state]. rewrite Hc. cbn [calls state]. rewrite Hl.
  cbn. repeat split.
Qed.

End Fetch.

(** C7.  [fetchGitHistory] of utils.ts is all or nothing: it returns the
    records and the count together or throws its one error, and runs no
    command after a failure.  The [fetchGitHistory] of the Changelog
    component is not: it stores the count before it runs [git log], so when
    that second command fails the state holds the new count next to the
    error.  On a repository of 42 commits whose [git log] fails, the
    component ends with [totalCommits = 42] and the error message, where
    utils.ts delivers the error alone. *)
Theorem fetchGitHistory_partial_result :
  (forall exec page perPage w,
     let outcome := Utils.fetchGitHistory exec page perPage w in
     ((exists history, fst outcome = Ok history)
      \/ fst outcome = Throw fetchError)
     /\ (fst outcome = Throw fetchError <->
         (exists e, exec GitRevListCount = Throw e)
         \/ (exists e, exec (GitLog perPage ((page - 1) * perPage)) = Throw e))
     /\ (exists issued,
           calls (snd outcome) = (calls w ++ issued)%list
           /\ (issued = [GitRevListCount]
               \/ issued = [GitRevListCount;
                            GitLog perPage ((page - 1) * perPage)])))
  /\ (forall exec host page w countOutput e,
        exec GitRevListCount = Ok countOutput ->
        exec (GitLog Changelog.COMMITS_PER_PAGE
                ((page - 1) * Changelog.COMMITS_PER_PAGE)) = Throw e ->
        Changelog.totalCommits
          (state (snd (Changelog.fetchGitHistory host exec page w)))
        = parseInt (trim countOutput)
        /\ Changelog.error
             (state (snd (Changelog.fetchGitHistory host exec page w)))
           = Some Changelog.loadError)
  /\ Utils.fetchGitHistory logFails 1 Utils.COMMITS_PER_PAGE
       {| calls := []; state := tt |}
     = (Throw fetchError,
        {| calls := [GitRevListCount; GitLog 10 0]; state := tt |})
  /\ Changelog.totalCommits Changelog.initialState = Some 0%Z
  /\ Changelog.totalCommits
       (state (snd (Changelog.fetchGitHistory utcHost logFails 1 mounted)))
     = Some 42%Z
  /\ Changelog.error
       (state (snd (Changelog.fetchGitHistory utcHost logFails 1 mounted)))
     = Some Changelog.loadError.
Proof.
  split; [exact utils_fetch_atomic|].
  split; [|repeat split].
  intros exec host page w countOutput e Hc Hl.
  destruct (@component_fetch_log_fails exec host page w _ _ Hc Hl) as (_ & H1 & H2 & _).
  now split.
Qed.

Lemma fetchGitHistory_partial_result_witness :
  Changelog.totalCommits
    (state (snd (Changelog.fetchGitHistory berlinHost logFails 3 mounted)))
  = parseInt (trim "42")
  /\ Changelog.error
       (state (snd (Changelog.fetchGitHistory berlinHost logFails 3 mounted)))
     = Some Changelog.loadError.
Proof.
  apply (proj1 (proj2 fetchGitHistory_partial_result)
           logFails berlinHost 3%Z mounted "42" ExecError);
    reflexivity.
Defined.

(** * Further properties *)

Import UtilsView MoreTerms.

(** ** The parser, continued *)

Section SplitMore.

Variable sep : ascii.

Lemma split_parts_free (s : string) : Forall (free sep) (split s sep).
Proof.
  induction s as [|c s IH]; [now repeat constructor|].
  cbn [split]. destruct (Ascii.eqb c sep) eqn:Hc.
  - constructor; [reflexivity | exact IH].
  - pose proof (split_nonempty sep s) as Hne.
    destruct (split s sep) as [|part parts]; [congruence|].
    inversion IH; subst. constructor; [|assumption].
    apply free_cons. now split.
Qed.

Lemma split_append (s t : string) :
  split (s ++ String sep t) sep = (split s sep ++ split t sep)%list.
Proof.
  induction s as [|c s IH].
  - cbn [append split app]. now rewrite Ascii.eqb_refl.
  - cbn [append split]. rewrite IH.
    destruct (Ascii.eqb c sep); [reflexivity|].
    pose proof (split_nonempty sep s) as Hne.
    destruct (split s sep) as [|part parts]; [congruence | reflexivity].
Qed.

End SplitMore.

Lemma nth_error_Forall (A : Type) (P : A -> Prop) (l : list A) (n : nat) (x : A) :
  Forall P l -> nth_error l n = Some x -> P x.
Proof.
  intros H Hn. apply nth_error_In in Hn.
  rewrite Forall_forall in H. now apply H.
Qed.

(** X1.  The shape of every record [parseGitLog] returns: the hash is a string
    without a bar; the author and the date, when the line has them, are
    strings without a bar; a record with a date has an author; and the
    category is the one [detectCommitType] gives the record's message. *)
Theorem parseGitLog_record_shape (logOutput : string) (commit : Commit) :
  In commit (parseGitLog logOutput) ->
  (exists h, hash commit = Some h /\ free bar h)
  /\ (forall a, author commit = Some a -> free bar a)
  /\ (forall d, date commit = Some d -> free bar d)
  /\ (date commit <> None -> author commit <> None)
  /\ type commit = detectCommitType (message commit).
Proof.
  unfold parseGitLog. intros H. apply in_map_iff in H.
  destruct H as (line & <- & _). unfold parseLine. cbn [hash author date message type].
  pose proof (split_parts_free bar line) as Hfree.
  pose proof (split_nonempty bar line) as Hne.
  destruct (split line bar) as [|h parts]; [congruence|].
  split; [exists h; split; [reflexivity | now inversion Hfree]|].
  split; [intros a Ha; exact (@nth_error_Forall _ _ _ 1%nat _ Hfree Ha)|].
  split; [intros d Hd; exact (@nth_error_Forall _ _ _ 2%nat _ Hfree Hd)|].
  split; [|reflexivity].
  destruct parts as [|a parts]; [now cbn | discriminate].
Qed.

Lemma parseGitLog_record_shape_witness :
  exists h,
    hash (parseLine "9f3c2ab|Bob|2024-03-09|fix: a|b") = Some h /\ free bar h.
Proof.
  apply (parseGitLog_record_shape "9f3c2ab|Bob|2024-03-09|fix: a|b"
           (parseLine "9f3c2ab|Bob|2024-03-09|fix: a|b")).
  left. reflexivity.
Defined.

(** X2.  Writing the four fields of a parsed line back with bars between them
    gives the line again, for every line of at least four parts: nothing
    of the line is lost or changed, whatever bars its message holds. *)
Theorem parseLine_print (line h a d : string) :
  (4 <= length (split line bar))%nat ->
  hash (parseLine line) = Some h ->
  author (parseLine line) = Some a ->
  date (parseLine line) = Some d ->
  logLine h a d (message (parseLine line)) = line.
Proof.
  unfold parseLine. cbn [hash author date message].
  intros Hlen Hh Ha Hd.
  rewrite <- (join_split bar line) at 2.
  destruct (split line bar) as [|h' [|a' [|d' [|m rest]]]];
    cbn [length] in Hlen; try lia.
  cbn [nth_error] in Hh, Ha, Hd.
  injection Hh as ->. injection Ha as ->. injection Hd as ->.
  cbn [skipn]. unfold logLine.
  change "|" with (String bar EmptyString).
  now rewrite (@join_cons bar h), (@join_cons bar a), (@join_cons bar d)
    by discriminate.
Qed.

Lemma parseLine_print_witness :
  logLine "9f3c2ab" "Bob" "2024-03-09"
          (message (parseLine "9f3c2ab|Bob|2024-03-09|fix: a|b||"))
  = "9f3c2ab|Bob|2024-03-09|fix: a|b||".
Proof.
  apply (@parseLine_print "9f3c2ab|Bob|2024-03-09|fix: a|b||"
           "9f3c2ab" "Bob" "2024-03-09"); cbn; try reflexivity; lia.
Defined.

(** X3.  Parsing two outputs joined by a line break gives the records of the
    first followed by the records of the second. *)
Theorem parseGitLog_append (first second : string) :
  parseGitLog (first ++ String newline second)
  = (parseGitLog first ++ parseGitLog second)%list.
Proof.
  unfold parseGitLog. now rewrite split_append, filter_app, map_app.
Qed.

(** ** The classifiers, continued *)

Lemma toLowerChar_idempotent (c : ascii) :
  toLowerChar (toLowerChar c) = toLowerChar c.
Proof.
  destruct c as [[] [] [] [] [] [] [] []]; reflexivity.
Qed.

Lemma toLowerCase_idempotent (s : string) :
  toLowerCase (toLowerCase s) = toLowerCase s.
Proof.
  induction s as [|c s IH]; [reflexivity|].
  cbn [toLowerCase]. now rewrite toLowerChar_idempotent, IH.
Qed.

Lemma toLowerCase_app (s t : string) :
  toLowerCase (s ++ t) = toLowerCase s ++ toLowerCase t.
Proof.
  induction s as [|c s IH]; [reflexivity|].
  cbn [append toLowerCase]. now rewrite IH.
Qed.

Lemma startsWith_app (p s : string) : startsWith (p ++ s) p = true.
Proof.
  induction p as [|c p IH]; [reflexivity|].
  cbn [append startsWith]. now rewrite Ascii.eqb_refl, IH.
Qed.

Lemma includes_startsWith (s p : string) :
  startsWith s p = true -> includes s p = true.
Proof.
  intros H. destruct s; cbn [includes]; now rewrite H.
Qed.

Lemma includes_app (a k b : string) : includes (a ++ k ++ b) k = true.
Proof.
  induction a as [|c a IH].
  - change ("" ++ k ++ b) with (k ++ b).
    apply includes_startsWith, startsWith_app.
  - cbn [append includes]. rewrite IH. apply orb_true_r.
Qed.

(** X4.  Both classifiers read the message in lower case only: a message and
    its lower-case form get the same category, from each of them. *)
Theorem classifiers_ignore_case (message : string) :
  detectCommitType (toLowerCase message) = detectCommitType message
  /\ Changelog.detectCommitType (toLowerCase message)
     = Changelog.detectCommitType message.
Proof.
  unfold detectCommitType, Changelog.detectCommitType.
  now rewrite toLowerCase_idempotent.
Qed.

(** X5.  The classifier of the component answers what the classifier of
    utils.ts answers, or [Other]: it never names a different category. *)
Theorem component_classifier_coarser (message : string) :
  Changelog.detectCommitType message = detectCommitType message
  \/ Changelog.detectCommitType message = Other.
Proof.
  unfold Changelog.detectCommitType, detectCommitType.
  set (lm := toLowerCase message).
  repeat
    match goal with
    | |- context [startsWith lm ?k || includes lm ?j] =>
        destruct (startsWith lm k || includes lm j); [now left|]
    end.
  now right.
Qed.

(** X6.  The keyword after a colon outranks the prefix of the message: a
    message that holds ": feat" anywhere, in any case, is a feature for
    both classifiers, whatever it starts with. *)
Theorem infix_feat_wins (before keyword after : string) :
  toLowerCase keyword = ": feat" ->
  detectCommitType (before ++ keyword ++ after) = Feature
  /\ Changelog.detectCommitType (before ++ keyword ++ after) = Feature.
Proof.
  intros H. unfold detectCommitType, Changelog.detectCommitType.
  rewrite !toLowerCase_app, H, includes_app, orb_true_r. now split.
Qed.

Lemma infix_feat_wins_witness :
  detectCommitType ("fix" ++ ": Feat" ++ "ure flag is ignored") = Feature
  /\ Changelog.detectCommitType ("fix" ++ ": Feat" ++ "ure flag is ignored")
     = Feature.
Proof.
  apply (@infix_feat_wins "fix" ": Feat" "ure flag is ignored"). reflexivity.
Defined.

(** ** The filter, continued *)

Lemma filter_all (A : Type) (l : list A) : filter (fun _ => true) l = l.
Proof.
  apply filter_fixed. now apply Forall_forall.
Qed.

Lemma filterR_as_filter (A : Type) (p : A -> Result bool) (l kept : list A) :
  filterR p l = Ok kept ->
  kept = filter (fun x => match p x with Ok keep => keep | Throw _ => false end) l.
Proof.
  revert kept. induction l as [|x l IH]; intros kept H.
  - now inversion H.
  - apply filterR_inv in H. destruct H as (keep & rest & Hx & Hrest & ->).
    cbn [filter]. rewrite Hx, <- (IH rest Hrest). reflexivity.
Qed.

Lemma filterR_throws (A : Type) (p : A -> Result bool) (l : list A) (e : JsError) :
  filterR p l = Throw e -> exists x, In x l /\ p x = Throw e.
Proof.
  induction l as [|x l IH]; [discriminate|].
  cbn [filterR]. destruct (p x) as [keep|e'] eqn:Hx; cbn [bind].
  - destruct (filterR p l) as [rest|e'] eqn:Hrest; cbn [bind]; [discriminate|].
    intros [= <-]. destruct (IH eq_refl) as (y & Hy & Hpy).
    exists y. split; [now right | assumption].
  - intros [= <-]. exists x. split; [now left | assumption].
Qed.

Lemma matchesQuery_throws (query : string) (commit : Commit) (e : JsError) :
  matchesQuery query commit = Throw e ->
  e = TypeError /\ (author commit = None \/ hash commit = None).
Proof.
  unfold matchesQuery.
  destruct (includes (toLowerCase (message commit)) query); [discriminate|].
  destruct (author commit) as [a|]; cbn [toLowerCaseOf bind].
  - destruct (includes (toLowerCase a) query); [discriminate|].
    destruct (hash commit) as [h|]; cbn [toLowerCaseOf bind]; [discriminate|].
    intros [= <-]. now split; [|right].
  - intros [= <-]. now split; [|left].
Qed.

(** X7.  When [filterCommits] returns, it returns the records of its input
    that pass every active filter, in the order of the input: the three
    filters combine as a conjunction. *)
Theorem filterCommits_conjunction (host : Host) (commits kept : list Commit)
    (filters : CommitFilters) :
  filterCommits host commits filters = Ok kept ->
  kept = filter (accepts host filters) commits.
Proof.
  unfold filterCommits. intros H.
  set (tp := fun commit : Commit =>
               match filterType filters with
               | All => true
               | Only t => hasType t commit
               end).
  set (sp := fun commit : Commit =>
               if truthy (trim (searchQuery filters))
               then found (toLowerCase (searchQuery filters)) commit
               else true).
  set (dp := fun commit : Commit =>
               match dateRange filters with
               | None => true
               | Some range =>
                   (if truthy (startDate range)
                    then notBefore host (startDate range) commit else true)
                   && (if truthy (endDate range)
                       then notAfter host (endDate range) commit else true)
               end).
  assert (match filterType filters with
          | All => commits
          | Only t => filter (hasType t) commits
          end = filter tp commits) as E1.
  { subst tp. destruct (filterType filters); [now rewrite filter_all | reflexivity]. }
  rewrite E1 in H. clear E1.
  assert (exists searched,
             searched = filter sp (filter tp commits)
             /\ match dateRange filters with
                | None => Ok searched
                | Some range =>
                    Ok (let r := if truthy (startDate range)
                                 then filter (notBefore host (startDate range)) searched
                                 else searched in
                        if truthy (endDate range)
                        then filter (notAfter host (endDate range)) r else r)
                end = Ok kept) as (searched & -> & H2).
  { subst sp. destruct (truthy (trim (searchQuery filters))).
    - destruct (filterR _ (filter tp commits)) as [searched|e] eqn:Hs;
        cbn [bind] in H; [|discriminate].
      exists searched. split; [exact (filterR_as_filter _ _ Hs) | exact H].
    - cbn [bind] in H. exists (filter tp commits).
      split; [now rewrite filter_all | exact H]. }
  assert (kept = filter dp (filter sp (filter tp commits))) as ->.
  { subst dp. destruct (dateRange filters) as [range|];
      injection H2 as <-; [|now rewrite filter_all].
    cbv zeta.
    destruct (truthy (startDate range)), (truthy (endDate range));
      rewrite ?filter_filter_andb; apply filter_ext; intros commit;
      now rewrite ?andb_true_r. }
  rewrite !filter_filter_andb. apply filter_ext. intros commit.
  unfold accepts. subst tp sp dp. cbv beta. now rewrite andb_assoc.
Qed.

Lemma filterCommits_conjunction_witness :
  [dated "2024-10-27"]
  = filter (accepts utcHost (dateCriteria "" "2024-10-27"))
           [dated "2024-10-27"; dated "2024-10-28"].
Proof.
  apply (@filterCommits_conjunction utcHost
           [dated "2024-10-27"; dated "2024-10-28"] [dated "2024-10-27"]
           (dateCriteria "" "2024-10-27")).
  vm_compute. reflexivity.
Defined.

(** X8.  [filterCommits] throws nothing but a [TypeError], and only when the
    search text is not blank and a record of the input has no author or no
    hash. *)
Theorem filterCommits_throws_only (host : Host) (commits : list Commit)
    (filters : CommitFilters) (e : JsError) :
  filterCommits host commits filters = Throw e ->
  e = TypeError
  /\ truthy (trim (searchQuery filters)) = true
  /\ exists commit,
       In commit commits /\ (author commit = None \/ hash commit = None).
Proof.
  unfold filterCommits.
  destruct (truthy (trim (searchQuery filters))).
  - destruct (filterR _ _) as [searched|e'] eqn:Hs; cbn [bind].
    + destruct (dateRange filters); discriminate.
    + intros [= <-]. apply filterR_throws in Hs.
      destruct Hs as (commit & Hin & Hthrow).
      apply matchesQuery_throws in Hthrow. destruct Hthrow as [-> Hmissing].
      split; [reflexivity|]. split; [reflexivity|].
      exists commit. split; [|assumption].
      destruct (filterType filters); [assumption|].
      now apply filter_In in Hin.
  - cbn [bind]. destruct (dateRange filters); discriminate.
Qed.

Lemma filterCommits_throws_only_witness :
  TypeError = TypeError
  /\ truthy (trim "login") = true
  /\ exists commit,
       In commit (parseGitLog "abc123")
       /\ (author commit = None \/ hash commit = None).
Proof.
  apply (@filterCommits_throws_only utcHost (parseGitLog "abc123")
           {| filterType := All; searchQuery := "login"; dateRange := None |}
           TypeError).
  reflexivity.
Defined.

Lemma isWhiteSpace_toLowerChar (c : ascii) :
  isWhiteSpace (toLowerChar c) = isWhiteSpace c.
Proof.
  destruct c as [[] [] [] [] [] [] [] []]; reflexivity.
Qed.

Lemma trimStart_toLowerCase (s : string) :
  trimStart (toLowerCase s) = toLowerCase (trimStart s).
Proof.
  induction s as [|c s IH]; [reflexivity|].
  cbn [toLowerCase trimStart]. rewrite isWhiteSpace_toLowerChar.
  now destruct (isWhiteSpace c).
Qed.

Lemma trimEnd_toLowerCase (s : string) :
  trimEnd (toLowerCase s) = toLowerCase (trimEnd s).
Proof.
  induction s as [|c s IH]; [reflexivity|].
  cbn [toLowerCase trimEnd]. rewrite IH, isWhiteSpace_toLowerChar.
  destruct (trimEnd s); cbn [toLowerCase]; [|reflexivity].
  now destruct (isWhiteSpace c).
Qed.

Lemma trim_toLowerCase (s : string) :
  trim (toLowerCase s) = toLowerCase (trim s).
Proof.
  unfold trim. now rewrite trimStart_toLowerCase, trimEnd_toLowerCase.
Qed.

Lemma truthy_toLowerCase (s : string) : truthy (toLowerCase s) = truthy s.
Proof.
  now destruct s.
Qed.

(** X9.  The search ignores the case of the search text: a text and its
    lower-case form select the same records, or throw alike. *)
Theorem filterCommits_query_case (host : Host) (commits : list Commit)
    (t : TypeFilter) (query : string) (range : option DateRange) :
  filterCommits host commits
    {| filterType := t; searchQuery := toLowerCase query; dateRange := range |}
  = filterCommits host commits
      {| filterType := t; searchQuery := query; dateRange := range |}.
Proof.
  unfold filterCommits. cbn [filterType searchQuery dateRange].
  now rewrite trim_toLowerCase, truthy_toLowerCase, toLowerCase_idempotent.
Qed.

(** X10.  The criteria can be applied one at a time: filtering by category,
    then the result by search text, then that result by date range, is
    filtering by the three at once, exceptions included. *)
Theorem filterCommits_one_at_a_time (host : Host) (commits : list Commit)
    (t : TypeFilter) (query : string) (range : option DateRange) :
  (byType <- filterCommits host commits
               {| filterType := t; searchQuery := ""; dateRange := None |} ;;
   bySearch <- filterCommits host byType
                 {| filterType := All; searchQuery := query; dateRange := None |} ;;
   filterCommits host bySearch
     {| filterType := All; searchQuery := ""; dateRange := range |})%js
  = filterCommits host commits
      {| filterType := t; searchQuery := query; dateRange := range |}.
Proof.
  unfold filterCommits. cbn [filterType searchQuery dateRange].
  change (truthy (trim "")) with false. cbn [bind].
  destruct (truthy (trim query)); cbn [bind]; [|reflexivity].
  destruct (filterR _ _); reflexivity.
Qed.

(** ** Blank output *)

Lemma trimStart_head (s : string) (c : ascii) (r : string) :
  trimStart s = String c r -> isWhiteSpace c = false.
Proof.
  induction s as [|d s IH]; [discriminate|].
  cbn [trimStart]. destruct (isWhiteSpace d) eqn:Hd; [exact IH|].
  now intros [= <- _].
Qed.

Lemma trimEnd_keeps_head (c : ascii) (r : string) :
  isWhiteSpace c = false -> trimEnd (String c r) <> "".
Proof.
  intros Hc. cbn [trimEnd]. rewrite Hc. now destruct (trimEnd r).
Qed.

Lemma trimStart_allWhite (s : string) :
  trimStart s = "" <-> allWhite s = true.
Proof.
  induction s as [|c s IH]; [now split|].
  cbn [trimStart allWhite]. destruct (isWhiteSpace c); cbn [andb]; [exact IH|].
  now split.
Qed.

Lemma trim_allWhite (s : string) : trim s = "" <-> allWhite s = true.
Proof.
  rewrite <- trimStart_allWhite. unfold trim. split.
  - destruct (trimStart s) as [|c r] eqn:E; [reflexivity|].
    intros H. now apply (@trimEnd_keeps_head c r (@trimStart_head s c r E)) in H.
  - now intros ->.
Qed.

Lemma split_allWhite (s : string) (sep : ascii) :
  allWhite s = true -> Forall (fun part => allWhite part = true) (split s sep).
Proof.
  induction s as [|c s IH]; [now repeat constructor|].
  cbn [allWhite split]. intros H. apply andb_prop in H. destruct H as [Hc Hs].
  specialize (IH Hs). destruct (Ascii.eqb c sep); [now constructor|].
  pose proof (split_nonempty sep s) as Hne.
  destruct (split s sep) as [|part parts]; [congruence|].
  inversion IH; subst. constructor; [|assumption].
  cbn [allWhite]. now rewrite Hc.
Qed.

Lemma blank_output_lines (s : string) :
  truthy (trim s) = false -> filter nonBlank (split s newline) = [].
Proof.
  intros H.
  assert (allWhite s = true) as Hw
    by (apply trim_allWhite; now destruct (trim s)).
  pose proof (@split_allWhite s newline Hw) as Hparts.
  induction Hparts as [|part parts Hpart _ IH]; [reflexivity|].
  cbn [filter]. unfold nonBlank at 1.
  now rewrite (proj2 (trim_allWhite part) Hpart).
Qed.

(** X11.  The records [fetchGitHistory] of utils.ts returns are those of
    [parseGitLog] on the output of [git log], whether the output is blank
    or not, together with [parseInt] of the trimmed count output: the early
    return on a blank output changes nothing. *)
Theorem utils_fetch_is_parse (exec : Exec) (page perPage : Z) (w : World unit)
    (countOutput stdout : string) :
  exec GitRevListCount = Ok countOutput ->
  exec (GitLog perPage ((page - 1) * perPage)) = Ok stdout ->
  fst (Utils.fetchGitHistory exec page perPage w)
  = Ok {| Utils.commits := parseGitLog stdout;
          totalCount := parseInt (trim countOutput) |}.
Proof.
  intros Hc Hl. rewrite (@utils_fetch_succeeds exec page perPage w _ _ Hc Hl).
  cbn [fst]. destruct (truthy (trim stdout)) eqn:Hblank; [reflexivity|].
  unfold parseGitLog. now rewrite (@blank_output_lines stdout Hblank).
Qed.

Lemma utils_fetch_is_parse_witness :
  fst (Utils.fetchGitHistory (fun _ => Ok "  ") 2 10 {| calls := []; state := tt |})
  = Ok {| Utils.commits := parseGitLog "  ";
          totalCount := parseInt (trim "  ") |}.
Proof.
  apply (@utils_fetch_is_parse (fun _ => Ok "  ") 2%Z 10%Z
           {| calls := []; state := tt |} "  " "  "); reflexivity.
Defined.

(** ** The Changelog component, continued *)

Section ComponentMore.

Variable host : Host.
Variable exec : Exec.

(** Unfolds the operations of a task down to its effect on the world. *)
Ltac run_task :=
  unfold Changelog.fetchGitHistory, Changelog.handlePageChange,
    Changelog.handleFilterChange, tryCatch, tbind, execPromise, get, ret,
    Changelog.setLoading, Changelog.setTotalCommits, Changelog.setError,
    Changelog.setCommits, Changelog.setFilteredCommits,
    Changelog.setCurrentPage, Changelog.setFilters, modify;
  cbn [fst snd negb calls state Changelog.commits Changelog.filteredCommits
       Changelog.loading Changelog.error Changelog.currentPage
       Changelog.totalCommits Changelog.filters].

Lemma applyFilters_unfold (commitsToFilter : list Commit)
    (currentFilters : CommitFilters) (w : World Changelog.State) :
  Changelog.applyFilters host commitsToFilter currentFilters w
  = match filterCommits host commitsToFilter currentFilters with
    | Ok result => Changelog.setFilteredCommits result w
    | Throw e => (Throw e, w)
    end.
Proof.
  unfold Changelog.applyFilters, filterCommits, tbind, Changelog.lift, ret.
  destruct (truthy (trim (searchQuery currentFilters))); cbn [bind].
  - destruct (filterR _ _); cbn [bind]; [|reflexivity].
    now destruct (dateRange currentFilters).
  - now destruct (dateRange currentFilters).
Qed.

Lemma filterCommits_nil (filters : CommitFilters) :
  filterCommits host [] filters = Ok [].
Proof.
  unfold filterCommits.
  destruct (filterType filters); cbn [filter];
    destruct (truthy (trim (searchQuery filters))); cbn [filterR bind];
    destruct (dateRange filters) as [range|]; try reflexivity;
    now destruct (truthy (startDate range)), (truthy (endDate range)).
Qed.

(** X12.  [applyFilters] of the component stores in [filteredCommits] what
    [filterCommits] of utils.ts returns on the same records and criteria,
    and throws what it throws, leaving [filteredCommits] as it was; it
    touches nothing else and runs no command. *)
Theorem applyFilters_is_filterCommits (commitsToFilter : list Commit)
    (currentFilters : CommitFilters) (w : World Changelog.State) :
  let outcome := Changelog.applyFilters host commitsToFilter currentFilters w in
  fst outcome = (_ <- filterCommits host commitsToFilter currentFilters ;; Ok tt)%js
  /\ Changelog.filteredCommits (state (snd outcome))
     = match filterCommits host commitsToFilter currentFilters with
       | Ok result => result
       | Throw _ => Changelog.filteredCommits (state w)
       end
  /\ calls (snd outcome) = calls w
  /\ Changelog.commits (state (snd outcome)) = Changelog.commits (state w)
  /\ Changelog.totalCommits (state (snd outcome)) = Changelog.totalCommits (state w)
  /\ Changelog.currentPage (state (snd outcome)) = Changelog.currentPage (state w)
  /\ Changelog.filters (state (snd outcome)) = Changelog.filters (state w)
  /\ Changelog.error (state (snd outcome)) = Changelog.error (state w)
  /\ Changelog.loading (state (snd outcome)) = Changelog.loading (state w).
Proof.
  cbv zeta. rewrite applyFilters_unfold.
  destruct (filterCommits host commitsToFilter currentFilters);
    cbn [bind]; run_task; repeat split.
Qed.

(** X13.  A change of criteria runs no command: it stores the criteria, sets
    the page to 1 and filters the records already fetched, which stay as
    they are; an exception of the filter leaves the handler uncaught. *)
Theorem handleFilterChange_effect (newFilters : CommitFilters)
    (w : World Changelog.State) :
  let outcome := Changelog.handleFilterChange host newFilters w in
  calls (snd outcome) = calls w
  /\ Changelog.filters (state (snd outcome)) = newFilters
  /\ Changelog.currentPage (state (snd outcome)) = 1%Z
  /\ Changelog.commits (state (snd outcome)) = Changelog.commits (state w)
  /\ Changelog.totalCommits (state (snd outcome)) = Changelog.totalCommits (state w)
  /\ Changelog.filteredCommits (state (snd outcome))
     = match filterCommits host (Changelog.commits (state w)) newFilters with
       | Ok result => result
       | Throw _ => Changelog.filteredCommits (state w)
       end
  /\ fst outcome
     = (_ <- filterCommits host (Changelog.commits (state w)) newFilters ;; Ok tt)%js.
Proof.
  cbv zeta. run_task. rewrite applyFilters_unfold.
  destruct (filterCommits host (Changelog.commits (state w)) newFilters);
    cbn [bind]; run_task; repeat split.
Qed.

(** X14.  When the count command fails, the component's fetch runs no other
    command and changes nothing but [loading], which ends false, and
    [error], which gets the load message: records, count, page and
    criteria stay as they were. *)
Theorem component_fetch_count_fails (page : Z) (w : World Changelog.State)
    (e : JsError) :
  exec GitRevListCount = Throw e ->
  Changelog.fetchGitHistory host exec page w
  = (Ok tt,
     {| calls := calls w ++ [GitRevListCount];
        state :=
          {| Changelog.commits := Changelog.commits (state w);
             Changelog.filteredCommits := Changelog.filteredCommits (state w);
             Changelog.loading := false;
             Changelog.error := Some Changelog.loadError;
             Changelog.currentPage := Changelog.currentPage (state w);
             Changelog.totalCommits := Changelog.totalCommits (state w);
             Changelog.filters := Changelog.filters (state w) |} |}).
Proof.
  intros Hc. run_task. rewrite Hc. reflexivity.
Qed.

Lemma component_fetch_calls (page : Z) (w : World Changelog.State)
    (countOutput : string) :
  exec GitRevListCount = Ok countOutput ->
  calls (snd (Changelog.fetchGitHistory host exec page w))
  = (calls w
     ++ [GitRevListCount;
         GitLog Changelog.COMMITS_PER_PAGE
                ((page - 1) * Changelog.COMMITS_PER_PAGE)])%list.
Proof.
  intros Hc. run_task. rewrite Hc. run_task.
  destruct (exec (GitLog _ _)) as [stdout|e]; run_task;
    [|now rewrite <- app_assoc].
  destruct (truthy (trim stdout)); run_task; [|now rewrite <- app_assoc].
  rewrite applyFilters_unfold.
  destruct (filterCommits _ _ _); run_task; now rewrite <- app_assoc.
Qed.

(** X15.  After a fetch whose two commands succeed, [commits] holds the parsed
    entries of the output (none for a blank output), [totalCommits] the
    parsed count, and [loading] is false.  [filteredCommits] holds what
    [filterCommits] returns on the entries under the stored criteria; when
    that throws, the component reports the load error although both
    commands succeeded, and [filteredCommits] keeps its old value beside
    the new [commits]. *)
Theorem component_fetch_succeeds (page : Z) (w : World Changelog.State)
    (countOutput stdout : string) :
  exec GitRevListCount = Ok countOutput ->
  exec (GitLog Changelog.COMMITS_PER_PAGE
          ((page - 1) * Changelog.COMMITS_PER_PAGE)) = Ok stdout ->
  let entries :=
    map Changelog.parseEntry (filter nonBlank (split stdout newline)) in
  let after := state (snd (Changelog.fetchGitHistory host exec page w)) in
  Changelog.commits after = entries
  /\ Changelog.totalCommits after = parseInt (trim countOutput)
  /\ Changelog.loading after = false
  /\ Changelog.currentPage after = Changelog.currentPage (state w)
  /\ Changelog.filters after = Changelog.filters (state w)
  /\ match filterCommits host entries (Changelog.filters (state w)) with
     | Ok result =>
         Changelog.filteredCommits after = result
         /\ Changelog.error after = Changelog.error (state w)
     | Throw _ =>
         Changelog.filteredCommits after = Changelog.filteredCommits (state w)
         /\ Changelog.error after = Some Changelog.loadError
     end.
Proof.
  intros Hc Hl. cbv zeta. run_task. rewrite Hc. run_task. rewrite Hl. run_task.
  destruct (truthy (trim stdout)) eqn:Hblank; run_task.
  - rewrite applyFilters_unfold. run_task.
    destruct (filterCommits _ _ _); run_task; repeat split.
  - rewrite (@blank_output_lines stdout Hblank). cbn [map].
    rewrite filterCommits_nil. repeat split.
Qed.

Lemma component_fetch_keeps_page (page : Z) (w : World Changelog.State) :
  Changelog.currentPage (state (snd (Changelog.fetchGitHistory host exec page w)))
  = Changelog.currentPage (state w).
Proof.
  run_task.
  destruct (exec GitRevListCount) as [countOutput|e]; run_task; [|reflexivity].
  destruct (exec (GitLog _ _)) as [stdout|e]; run_task; [|reflexivity].
  destruct (truthy (trim stdout)); run_task; [|reflexivity].
  rewrite applyFilters_unfold.
  destruct (filterCommits _ _ _); reflexivity.
Qed.

(** X16.  The component's fetch never throws and always ends with [loading]
    false; it leaves the page and the criteria alone; and it never clears
    an error: [error] afterwards is what it was or the load message. *)
Theorem component_fetch_settles (page : Z) (w : World Changelog.State) :
  let outcome := Changelog.fetchGitHistory host exec page w in
  fst outcome = Ok tt
  /\ Changelog.loading (state (snd outcome)) = false
  /\ Changelog.currentPage (state (snd outcome)) = Changelog.currentPage (state w)
  /\ Changelog.filters (state (snd outcome)) = Changelog.filters (state w)
  /\ (Changelog.error (state (snd outcome)) = Changelog.error (state w)
      \/ Changelog.error (state (snd outcome)) = Some Changelog.loadError).
Proof.
  cbv zeta. run_task.
  destruct (exec GitRevListCount) as [countOutput|e]; run_task;
    [|repeat split; now right].
  destruct (exec (GitLog _ _)) as [stdout|e]; run_task;
    [|repeat split; now right].
  destruct (truthy (trim stdout)); run_task; [|repeat split; now left].
  rewrite applyFilters_unfold.
  destruct (filterCommits _ _ _); run_task; repeat split;
    (now left) || (now right).
Qed.

(** X17.  A change of page stores the page and fetches it.  For a history of
    [n] commits and a page within [1..totalPages n], the [git log] command
    it runs skips fewer than [n] commits, so the page starts inside the
    history; a page before the last is followed by more commits than it
    shows, and the last page reaches the end of the history. *)
Theorem handlePageChange_window (n page : Z) (w : World Changelog.State)
    (countOutput : string) :
  (0 < n)%Z ->
  (1 <= page <= Pages.totalPages n)%Z ->
  exec GitRevListCount = Ok countOutput ->
  let outcome := Changelog.handlePageChange host exec page w in
  Changelog.currentPage (state (snd outcome)) = page
  /\ exists skip,
       calls (snd outcome)
       = (calls w ++ [GitRevListCount; GitLog 10 skip])%list
       /\ (0 <= skip < n)%Z
       /\ (page < Pages.totalPages n -> skip + 10 < n)%Z
       /\ (page = Pages.totalPages n -> n <= skip + 10)%Z.
Proof.
  intros Hn Hpage Hc. cbv zeta.
  unfold Changelog.handlePageChange, tbind, Changelog.setCurrentPage, modify.
  split.
  - now rewrite component_fetch_keeps_page.
  - exists ((page - 1) * Changelog.COMMITS_PER_PAGE)%Z.
    rewrite (component_fetch_calls _ _ Hc). cbn [calls].
    unfold Pages.totalPages, Changelog.COMMITS_PER_PAGE in *.
    split; [reflexivity|].
    revert Hpage. Z.div_mod_to_equations. lia.
Qed.

End ComponentMore.

Lemma component_fetch_count_fails_witness :
  Changelog.fetchGitHistory utcHost (fun _ => Throw ExecError) 1 mounted
  = (Ok tt,
     {| calls := [GitRevListCount];
        state :=
          {| Changelog.commits := [];
             Changelog.filteredCommits := [];
             Changelog.loading := false;
             Changelog.error := Some Changelog.loadError;
             Changelog.currentPage := 1;
             Changelog.totalCommits := Some 0%Z;
             Changelog.filters :=
               {| filterType := All; searchQuery := ""; dateRange := None |} |} |}).
Proof.
  apply (@component_fetch_count_fails utcHost (fun _ => Throw ExecError)
           1%Z mounted ExecError).
  reflexivity.
Defined.

Lemma component_fetch_succeeds_witness :
  Changelog.commits
    (state (snd (Changelog.fetchGitHistory utcHost
                   (fun cmd => match cmd with
                               | GitRevListCount => Ok "1"
                               | GitLog _ _ => Ok "abc123|Alice|2024-01-05|add login"
                               end) 1 mounted)))
  = map Changelog.parseEntry
        (filter nonBlank (split "abc123|Alice|2024-01-05|add login" newline)).
Proof.
  apply (@component_fetch_succeeds utcHost
           (fun cmd => match cmd with
                       | GitRevListCount => Ok "1"
                       | GitLog _ _ => Ok "abc123|Alice|2024-01-05|add login"
                       end) 1%Z mounted "1" "abc123|Alice|2024-01-05|add login");
    reflexivity.
Defined.

Lemma handlePageChange_window_witness :
  Changelog.currentPage
    (state (snd (Changelog.handlePageChange utcHost logFails 5 mounted)))
  = 5%Z.
Proof.
  apply (@handlePageChange_window utcHost logFails 42%Z 5%Z mounted "42");
    [lia | vm_compute; split; discriminate | reflexivity].
Defined.

(** ** The paginator, continued *)

Section PaginatorMore.

Import Pagination.
Local Open Scope Z_scope.





Lemma increasing_tail (x : Z) (l : list Z) : increasing (x :: l) -> increasing l.
Proof.
  destruct l as [|y l]; [trivial|]. now intros [_ H].
Qed.
















(** X20.  The paginator never shows more than five page buttons, nor more than
    nine controls in all, however many pages there are and whatever the
    current page is. *)
Theorem pageNumbers_size (currentPage totalPages : Z) :
  (length (getPageRange currentPage totalPages) <= 5)%nat
  /\ (length (pageNumbers currentPage totalPages) <= 9)%nat.
Proof.
  assert (length (getPageRange currentPage totalPages) <= 5)%nat as Hrange.
  { rewrite getPageRange_window, pagesFrom_length.
    destruct (Z.leb_spec totalPages maxPageButtons) as [Hle|Hgt].
    - unfold Spec.window. rewrite (proj2 (Z.leb_le _ _) Hle). cbn [fst snd].
      unfold maxPageButtons in Hle. lia.
    - destruct (window_large currentPage Hgt) as (-> & _ & _ & H & _).
      cbn [fst snd]. rewrite H. unfold maxPageButtons. lia. }
  split; [exact Hrange|].
  unfold pageNumbers. rewrite !length_app, length_map.
  repeat match goal with
         | |- context [if ?b then _ else _] => destruct b
         end; cbn [length app]; lia.
Qed.

(** X21.  Previous and Next stay within the pages: from a current page within
    [1..totalPages] each asks for a page within it or does nothing,
    Previous does nothing exactly on page 1 and Next exactly on the last
    page, and a button is rendered disabled exactly when it does
    nothing. *)
Theorem navigation_in_range (currentPage totalPages : Z) :
  1 <= currentPage <= totalPages ->
  (forall page, handlePrev currentPage = Some page ->
                page = currentPage - 1 /\ 1 <= page <= totalPages)
  /\ (forall page, handleNext currentPage totalPages = Some page ->
                   page = currentPage + 1 /\ 1 <= page <= totalPages)
  /\ (handlePrev currentPage = None <-> currentPage = 1)
  /\ (handleNext currentPage totalPages = None <-> currentPage = totalPages)
  /\ (forall nav, Pagination.Pagination currentPage totalPages = Some nav ->
        (prevDisabled nav = true <-> handlePrev currentPage = None)
        /\ (nextDisabled nav = true <-> handleNext currentPage totalPages = None)).
Proof.
  intros Hcur.
  assert (handlePrev currentPage = None <-> currentPage = 1) as Hprev.
  { unfold handlePrev. destruct (Z.gtb_spec currentPage 1);
      split; try discriminate; try reflexivity; lia. }
  assert (handleNext currentPage totalPages = None <-> currentPage = totalPages)
    as Hnext.
  { unfold handleNext. destruct (Z.ltb_spec currentPage totalPages);
      split; try discriminate; try reflexivity; lia. }
  split; [|split; [|split; [exact Hprev | split; [exact Hnext|]]]].
  - unfold handlePrev. intros page.
    destruct (Z.gtb_spec currentPage 1); [|discriminate].
    intros [= <-]. lia.
  - unfold handleNext. intros page.
    destruct (Z.ltb_spec currentPage totalPages); [|discriminate].
    intros [= <-]. lia.
  - intros nav. unfold Pagination.Pagination.
    destruct (totalPages <=? 1); [discriminate|].
    intros [= <-]. cbn [prevDisabled nextDisabled].
    rewrite Hprev, Hnext, !Z.eqb_eq. now split.
Qed.

Lemma navigation_in_range_witness :
  handlePrev 1 = None <-> 1 = 1.
Proof.
  assert (1 <= 1 <= 3) as H by lia.
  exact (proj1 (proj2 (proj2 (@navigation_in_range 1 3 H)))).
Defined.

(** X22.  The component shows the paginator exactly for a history of more than
    one page of commits, that is more than ten. *)
Theorem pagination_shown_iff (currentPage totalCommits : Z) :
  Pagination.Pagination currentPage (Pages.totalPages totalCommits) = None
  <-> totalCommits <= 10.
Proof.
  unfold Pagination.Pagination, Pages.totalPages, Changelog.COMMITS_PER_PAGE.
  destruct (Z.leb_spec (- (- totalCommits / 10)) 1) as [H|H].
  - split; [intros _ | reflexivity]. revert H. Z.div_mod_to_equations. lia.
  - split; [discriminate|]. intros Hle. exfalso. revert H.
    Z.div_mod_to_equations. lia.
Qed.

End PaginatorMore.

(** ** Short hashes and colours *)

Lemma take_length (n : nat) (s : string) :
  String.length (take n s) = Nat.min n (String.length s).
Proof.
  revert s. induction n as [|n IH]; intros [|c s]; cbn [take String.length Nat.min];
    try reflexivity.
  now rewrite IH.
Qed.

Lemma take_prefix (n : nat) (s : string) : startsWith s (take n s) = true.
Proof.
  revert s. induction n as [|n IH]; intros [|c s]; cbn [take startsWith];
    try reflexivity.
  now rewrite Ascii.eqb_refl, IH.
Qed.

Lemma startsWith_refl (s : string) : startsWith s s = true.
Proof.
  induction s as [|c s IH]; [reflexivity|].
  cbn [startsWith]. now rewrite Ascii.eqb_refl, IH.
Qed.

(** X23.  What [shortenHash] returns for a hash that is a string: a prefix of
    the hash, of the asked length when the hash is longer and of the length
    of the hash otherwise (empty for a length below one); shortening the
    result again to the same length changes nothing. *)
Theorem shortenHash_prefix (h : string) (length : Z) :
  startsWith h (shortenHash (Some h) length) = true
  /\ lengthOf (shortenHash (Some h) length)
     = Z.min (lengthOf h) (Z.max length 0)
  /\ shortenHash (Some (shortenHash (Some h) length)) length
     = shortenHash (Some h) length.
Proof.
  assert (startsWith h (shortenHash (Some h) length) = true
          /\ lengthOf (shortenHash (Some h) length)
             = Z.min (lengthOf h) (Z.max length 0)) as [Hprefix Hlen].
  { unfold shortenHash, lengthOf, substring0.
    destruct h as [|c h]; [split; [reflexivity | cbn; lia]|].
    cbn [truthy negb].
    destruct (Z.gtb_spec (Z.of_nat (String.length (String c h))) length).
    - split; [apply take_prefix | rewrite take_length; lia].
    - split; [apply startsWith_refl | lia]. }
  split; [exact Hprefix | split; [exact Hlen|]].
  remember (shortenHash (Some h) length) as short eqn:E. clear E.
  unfold shortenHash.
  destruct short as [|c rest]; [reflexivity|]. cbn [truthy negb].
  assert (0 < lengthOf (String c rest))%Z by (unfold lengthOf; cbn; lia).
  destruct (Z.gtb_spec (lengthOf (String c rest)) length); [lia | reflexivity].
Qed.

Lemma hash_of_parsed (logOutput : string) (commit : Commit) :
  In commit (parseGitLog logOutput) -> exists h, hash commit = Some h.
Proof.
  unfold parseGitLog. intros H. apply in_map_iff in H.
  destruct H as (line & <- & _). unfold parseLine. cbn [hash].
  pose proof (split_nonempty bar line) as Hne.
  destruct (split line bar) as [|h parts]; [congruence|]. now exists h.
Qed.

(** X24.  The short hash [ChangelogItem] shows is [shortenHash] of the hash at
    length 7 whenever the hash is a string, as it is on every record of
    [parseGitLog]; on a record without a hash the component throws where
    [shortenHash] returns the empty string. *)
Theorem shortHash_is_shortenHash :
  (forall commit h,
     hash commit = Some h ->
     ChangelogItem.shortHash commit = Ok (shortenHash (hash commit) 7))
  /\ (forall logOutput commit,
        In commit (parseGitLog logOutput) ->
        ChangelogItem.shortHash commit = Ok (shortenHash (hash commit) 7))
  /\ (forall commit,
        hash commit = None ->
        ChangelogItem.shortHash commit = Throw TypeError
        /\ shortenHash (hash commit) 7 = "").
Proof.
  assert (forall commit h,
             hash commit = Some h ->
             ChangelogItem.shortHash commit = Ok (shortenHash (hash commit) 7))
    as Hsome.
  { intros commit h H. unfold ChangelogItem.shortHash, shortenHash.
    rewrite H. destruct h as [|c h]; reflexivity. }
  split; [exact Hsome | split].
  - intros logOutput commit Hin.
    destruct (hash_of_parsed _ _ Hin) as [h Hh]. exact (Hsome _ _ Hh).
  - intros commit H. unfold ChangelogItem.shortHash, shortenHash.
    now rewrite H.
Qed.

Lemma shortHash_is_shortenHash_witness :
  ChangelogItem.shortHash (parseLine "0123456789abcdef|Alice|2024-01-05|x")
  = Ok (shortenHash (hash (parseLine "0123456789abcdef|Alice|2024-01-05|x")) 7).
Proof.
  apply (proj1 (proj2 shortHash_is_shortenHash)
           "0123456789abcdef|Alice|2024-01-05|x").
  left. reflexivity.
Defined.

(** [getCommitTypeColors] gives each category the colours [ChangelogItem]
    uses for it, and no two categories share a background or a text
    colour. *)
Lemma colors_agree_and_differ :
  (forall t, getCommitTypeColors t = ChangelogItem.typeColors t)
  /\ (forall t1 t2,
        bg (getCommitTypeColors t1) = bg (getCommitTypeColors t2) -> t1 = t2)
  /\ (forall t1 t2,
        text (getCommitTypeColors t1) = text (getCommitTypeColors t2) -> t1 = t2).
Proof.
  split; [intros []; reflexivity|].
  split; intros [] []; cbn; intros H; try reflexivity; discriminate H.
Qed.

(** ** The filter bar *)

Lemma filterCommits_empty_bounds (host : Host) (commits : list Commit)
    (t : TypeFilter) (query : string) :
  filterCommits host commits
    {| filterType := t; searchQuery := query;
       dateRange := Some {| startDate := ""; endDate := "" |} |}
  = filterCommits host commits
      {| filterType := t; searchQuery := query; dateRange := None |}.
Proof.
  reflexivity.
Qed.

Lemma truthy_false (s : string) : truthy s = false -> s = "".
Proof.
  now destruct s.
Qed.

(** X25.  Whatever a handler of the filter bar passes to [onFilterChange]
    filters as the state the handler leaves behind: [filterCommits] gives
    the same result for the criteria passed and for the criteria the new
    state stands for, also when the state keeps a date range with both
    bounds empty and the criteria passed have none. *)
Theorem emitted_criteria_match_state (host : Host) (commits : list Commit)
    (s : ChangelogFilter.State) :
  (forall newType,
     option_map (filterCommits host commits)
       (snd (ChangelogFilter.handleTypeChange s newType))
     = Some (filterCommits host commits
               (ChangelogFilter.criteria
                  (fst (ChangelogFilter.handleTypeChange s newType)))))
  /\ (forall value,
        option_map (filterCommits host commits)
          (snd (ChangelogFilter.handleSearchChange s value))
        = Some (filterCommits host commits
                  (ChangelogFilter.criteria
                     (fst (ChangelogFilter.handleSearchChange s value)))))
  /\ (forall field value,
        option_map (filterCommits host commits)
          (snd (ChangelogFilter.handleDateChange s field value))
        = Some (filterCommits host commits
                  (ChangelogFilter.criteria
                     (fst (ChangelogFilter.handleDateChange s field value)))))
  /\ (forall criteria,
        snd (ChangelogFilter.toggleDateFilter s) = Some criteria ->
        criteria
        = ChangelogFilter.criteria (fst (ChangelogFilter.toggleDateFilter s))).
Proof.
  split; [reflexivity|]. split; [reflexivity|]. split.
  - intros field value. unfold ChangelogFilter.handleDateChange.
    cbv zeta. cbn [fst snd].
    match goal with
    | |- context [if ?b then _ else _] => destruct b eqn:Hb
    end; [reflexivity|].
    apply orb_false_iff in Hb. destruct Hb as [Hs He].
    apply truthy_false in Hs, He.
    unfold ChangelogFilter.criteria.
    cbn [option_map ChangelogFilter.filterType ChangelogFilter.searchQuery
         ChangelogFilter.dateRange].
    f_equal. rewrite <- filterCommits_empty_bounds. do 3 f_equal.
    destruct field; cbn [startDate endDate] in *; now rewrite ?Hs, ?He.
  - intros criteria. unfold ChangelogFilter.toggleDateFilter.
    destruct (ChangelogFilter.showDateFilter s),
      (ChangelogFilter.dateRange s); cbn [fst snd]; try discriminate.
    now intros [= <-].
Qed.

Lemma emitted_criteria_match_state_witness :
  {| filterType := All; searchQuery := ""; dateRange := None |}
  = ChangelogFilter.criteria
      (fst (ChangelogFilter.toggleDateFilter
              {| ChangelogFilter.searchQuery := "";
                 ChangelogFilter.filterType := All;
                 ChangelogFilter.showDateFilter := true;
                 ChangelogFilter.dateRange :=
                   Some {| startDate := "2024-01-01"; endDate := "" |} |})).
Proof.
  apply (proj2 (proj2 (proj2
           (emitted_criteria_match_state utcHost []
              {| ChangelogFilter.searchQuery := "";
                 ChangelogFilter.filterType := All;
                 ChangelogFilter.showDateFilter := true;
                 ChangelogFilter.dateRange :=
                   Some {| startDate := "2024-01-01"; endDate := "" |} |})))).
  reflexivity.
Defined.

(** X26.  A change of a date never passes on a date range with both bounds
    empty: the criteria it passes have no date range or a range with a
    bound; and they carry the category and the search text of the bar. *)
Theorem handleDateChange_emits (s : ChangelogFilter.State)
    (field : ChangelogFilter.Field) (value : string) :
  exists criteria,
    snd (ChangelogFilter.handleDateChange s field value) = Some criteria
    /\ filterType criteria = ChangelogFilter.filterType s
    /\ searchQuery criteria = ChangelogFilter.searchQuery s
    /\ match dateRange criteria with
       | None => value = ""
       | Some range =>
           (startDate range <> "" \/ endDate range <> "")
           /\ match field with
              | ChangelogFilter.startDateField => startDate range = value
              | ChangelogFilter.endDateField => endDate range = value
              end
       end.
Proof.
  unfold ChangelogFilter.handleDateChange. cbv zeta. cbn [snd].
  match goal with
  | |- context [if ?b then _ else _] => destruct b eqn:Hb
  end; eexists; (split; [reflexivity|]); cbn [filterType searchQuery dateRange];
    (split; [reflexivity|]); (split; [reflexivity|]).
  - split; [|now destruct field].
    apply orb_true_iff in Hb.
    destruct Hb as [Hb|Hb]; [left | right]; intros E; now rewrite E in Hb.
  - apply orb_false_iff in Hb. destruct Hb as [Hs He].
    apply truthy_false in Hs, He.
    destruct field; cbn [startDate endDate] in *; assumption.
Qed.

(** X27.  While the date inputs are hidden the bar holds no date range: this
    holds at the start, every handler keeps it, a change of a date keeping
    it because the inputs it comes from are shown; and hiding the inputs
    always ends with no date range. *)
Theorem hidden_dates_no_range (s : ChangelogFilter.State) :
  let inv := fun st : ChangelogFilter.State =>
               ChangelogFilter.showDateFilter st = false ->
               ChangelogFilter.dateRange st = None in
  (forall activeType, inv (ChangelogFilter.initialState activeType))
  /\ (inv s ->
      (forall newType, inv (fst (ChangelogFilter.handleTypeChange s newType)))
      /\ (forall value, inv (fst (ChangelogFilter.handleSearchChange s value)))
      /\ inv (fst (ChangelogFilter.toggleDateFilter s))
      /\ (ChangelogFilter.showDateFilter s = true ->
          forall field value,
            inv (fst (ChangelogFilter.handleDateChange s field value))))
  /\ (ChangelogFilter.showDateFilter s = true ->
      ChangelogFilter.dateRange (fst (ChangelogFilter.toggleDateFilter s)) = None).
Proof.
  cbv zeta. split; [reflexivity|]. split.
  - intros Hinv. split; [|split; [|split]].
    + intros newType. exact Hinv.
    + intros value. exact Hinv.
    + unfold ChangelogFilter.toggleDateFilter.
      destruct (ChangelogFilter.showDateFilter s) eqn:Hshow,
        (ChangelogFilter.dateRange s) eqn:Hrange;
        cbn [fst ChangelogFilter.showDateFilter ChangelogFilter.dateRange negb];
        intros Hhidden; try reflexivity; try discriminate.
    + intros Hshow field value. unfold ChangelogFilter.handleDateChange.
      cbv zeta. cbn [fst ChangelogFilter.showDateFilter]. congruence.
  - intros Hshow. unfold ChangelogFilter.toggleDateFilter. rewrite Hshow.
    now destruct (ChangelogFilter.dateRange s).
Qed.

Lemma hidden_dates_no_range_witness :
  ChangelogFilter.dateRange
    (fst (ChangelogFilter.toggleDateFilter
            {| ChangelogFilter.searchQuery := "";
               ChangelogFilter.filterType := All;
               ChangelogFilter.showDateFilter := true;
               ChangelogFilter.dateRange :=
                 Some {| startDate := "2024-01-01"; endDate := "" |} |}))
  = None.
Proof.
  apply (proj2 (proj2 (hidden_dates_no_range
           {| ChangelogFilter.searchQuery := "";
              ChangelogFilter.filterType := All;
              ChangelogFilter.showDateFilter := true;
              ChangelogFilter.dateRange :=
                Some {| startDate := "2024-01-01"; endDate := "" |} |}))).
  reflexivity.
Defined.

(** ** Relative dates *)

Section FormatDate.

Variable host : Host.
Variable toLocaleDateString : option Z -> DateFormat -> string.

Local Open Scope Z_scope.

(** X28.  A date string the engine cannot read is shown as ["NaN years ago"] in
    the relative format: no branch of the chain holds for [NaN], so the
    last one is taken. *)
Theorem formatDate_invalid (now : Z) (dateStr : string) :
  newDate host (Some dateStr) = None ->
  formatDate host toLocaleDateString now dateStr relative = "NaN years ago"%string.
Proof.
  intros H. unfold formatDate. now rewrite H.
Qed.

(** X29.  The relative format does not tell past from future: the label of a
    date seen from an instant is the label of that instant's date seen
    from the first date. *)
Theorem formatDate_symmetric (s1 s2 : string) (t1 t2 : Z) :
  newDate host (Some s1) = Some t1 ->
  newDate host (Some s2) = Some t2 ->
  formatDate host toLocaleDateString t1 s2 relative
  = formatDate host toLocaleDateString t2 s1 relative.
Proof.
  intros H1 H2. unfold formatDate. rewrite H1, H2. unfold absDiff.
  now replace (Z.abs (t2 - t1)) with (Z.abs (t1 - t2)) by lia.
Qed.

(** X30.  The units of the relative format: with [days] the whole days between
    the date and now, the label is Today for 0, Yesterday for 1, a count
    of 2 to 6 days, of 1 to 4 weeks, of 1 to 12 months, or of at least 1
    year; a count of zero never appears. *)
Theorem formatDate_units (now : Z) (dateStr : string) (t : Z) :
  newDate host (Some dateStr) = Some t ->
  let days := Z.abs (now - t) / msPerDay in
  let label := formatDate host toLocaleDateString now dateStr relative in
  (days = 0 /\ label = "Today"%string)
  \/ (days = 1 /\ label = "Yesterday"%string)
  \/ (2 <= days <= 6
      /\ label = (numberToString (Some days) ++ " days ago")%string)
  \/ (exists weeks, 1 <= weeks <= 4 /\ 7 <= days < 30
                    /\ label = ago (Some weeks) "week" "weeks")
  \/ (exists months, 1 <= months <= 12 /\ 30 <= days < 365
                     /\ label = ago (Some months) "month" "months")
  \/ (exists years, 1 <= years /\ 365 <= days
                    /\ label = ago (Some years) "year" "years").
Proof.
  intros H. cbv zeta. unfold formatDate. rewrite H.
  unfold absDiff, floorDiv.
  change (1000 * 60 * 60 * 24) with msPerDay.
  set (days := Z.abs (now - t) / msPerDay).
  assert (0 <= days) as Hdays
    by (subst days; unfold msPerDay; Z.div_mod_to_equations; lia).
  clearbody days. unfold num_eq, num_lt.
  destruct (Z.eqb_spec days 0); [now left|].
  destruct (Z.eqb_spec days 1); [now right; left|].
  destruct (Z.ltb_spec days 7); [right; right; left; split; [lia | reflexivity]|].
  destruct (Z.ltb_spec days 30).
  { right; right; right; left. exists (days / 7).
    split; [Z.div_mod_to_equations; lia | split; [lia | reflexivity]]. }
  destruct (Z.ltb_spec days 365).
  { right; right; right; right; left. exists (days / 30).
    split; [Z.div_mod_to_equations; lia | split; [lia | reflexivity]]. }
  right; right; right; right; right. exists (days / 365).
  split; [Z.div_mod_to_equations; lia | split; [lia | reflexivity]].
Qed.

End FormatDate.

Lemma formatDate_invalid_witness :
  formatDate utcHost (fun _ _ => "") 0 "yesterday" relative = "NaN years ago".
Proof.
  apply (@formatDate_invalid utcHost (fun _ _ => "") 0%Z "yesterday").
  reflexivity.
Defined.

Lemma formatDate_symmetric_witness :
  formatDate utcHost (fun _ _ => "")
    (19727 * msPerDay) "2024-01-19" relative
  = formatDate utcHost (fun _ _ => "")
      (19741 * msPerDay) "2024-01-05" relative.
Proof.
  apply (@formatDate_symmetric utcHost (fun _ _ => "")
           "2024-01-05" "2024-01-19"); reflexivity.
Defined.

Lemma formatDate_units_witness :
  let days := (Z.abs (19741 * msPerDay - 19727 * msPerDay) / msPerDay)%Z in
  let label :=
    formatDate utcHost (fun _ _ => "") (19741 * msPerDay) "2024-01-05" relative in
  (days = 0%Z /\ label = "Today")
  \/ (days = 1%Z /\ label = "Yesterday")
  \/ ((2 <= days <= 6)%Z /\ label = numberToString (Some days) ++ " days ago")
  \/ (exists weeks, (1 <= weeks <= 4)%Z /\ (7 <= days < 30)%Z
                    /\ label = ago (Some weeks) "week" "weeks")
  \/ (exists months, (1 <= months <= 12)%Z /\ (30 <= days < 365)%Z
                     /\ label = ago (Some months) "month" "months")
  \/ (exists years, (1 <= years)%Z /\ (365 <= days)%Z
                    /\ label = ago (Some years) "year" "years").
Proof.
  apply (@formatDate_units utcHost (fun _ _ => "")
           (19741 * msPerDay)%Z "2024-01-05" (19727 * msPerDay)%Z).
  reflexivity.
Defined.
